(** * pyLSV2: low level communication ([pyLSV2/low_level_com.py])

    A shallow embedding of class [LLLSV2Com]: the framing of LSV2 telegrams
    (4 bytes of big-endian length, 4 bytes of code, payload), the buffer size
    setting, the connection state and the exchange [telegram] with its
    reassembly loop over a scripted socket. *)

From Stdlib Require Import ZArith List Bool Lia.
From Stdlib Require Import Strings.Byte.
From Stdlib Require Strings.Ascii Strings.String.
Import String.StringSyntax.
Import ListNotations.
Local Open Scope Z_scope.
Delimit Scope string_scope with string.

(** ** Python values *)

(** A [bytes] or [bytearray] value. *)
Definition bytes := list byte.

(** A [str] value: its Unicode code points, as [ord] gives them. *)
Definition pystr := list Z.

(** [len(x)] is a Python int. *)
Definition len {A : Type} (l : list A) : Z := Z.of_nat (length l).

Definition byte_to_Z (b : byte) : Z := Z.of_N (Byte.to_N b).

(** A byte from an int in [range(0, 256)]; [None] for any other int, where
    [bytearray.extend] raises [ValueError]. *)
Definition byte_of_Z (z : Z) : option byte :=
  if (0 <=? z) && (z <? 256) then Byte.of_N (Z.to_N z) else None.

(** The byte of [z mod 256]. *)
Definition byte_wrap (z : Z) : byte :=
  match Byte.of_N (Z.to_N (z mod 256)) with
  | Some b => b
  | None => x00
  end.

(** [s.isascii()]: every code point is below 128. *)
Definition isascii (s : pystr) : bool :=
  forallb (fun c => (0 <=? c) && (c <? 128)) s.

(** [x[i:j]] and [x[i:]] for [0 <= i <= j]. *)
Definition slice {A : Type} (i j : nat) (l : list A) : list A :=
  firstn (j - i) (skipn i l).

Definition slice_from {A : Type} (i : nat) (l : list A) : list A := skipn i l.

(** ** [struct] *)

(** [struct.pack("!L", n)]: four bytes, most significant first; [None] is
    [struct.error], raised when [n] is not in [0, 2^32). *)
Definition pack_L (n : Z) : option bytes :=
  if (0 <=? n) && (n <? 2 ^ 32) then
    Some [ byte_wrap (Z.shiftr n 24); byte_wrap (Z.shiftr n 16);
           byte_wrap (Z.shiftr n 8); byte_wrap n ]
  else None.

(** [struct.unpack("!L", b)[0]]; [None] is [struct.error], raised when [b] is
    not four bytes long. *)
Definition unpack_L (b : bytes) : option Z :=
  match b with
  | [b3; b2; b1; b0] =>
      Some (Z.lor (Z.shiftl (byte_to_Z b3) 24)
           (Z.lor (Z.shiftl (byte_to_Z b2) 16)
           (Z.lor (Z.shiftl (byte_to_Z b1) 8) (byte_to_Z b0))))
  | _ => None
  end.

(** ** [bytes.decode("utf-8", "ignore")] *)

(** A continuation byte, [0x80..0xBF]. *)
Definition is_cont (b : Z) : bool := (0x80 <=? b) && (b <=? 0xBF).

(** The bounds of the second byte after the lead byte [b0] of a sequence of
    three or four bytes (no overlong forms, no surrogates, nothing above
    U+10FFFF). *)
Definition second_lo (b0 : Z) : Z :=
  if b0 =? 0xE0 then 0xA0 else if b0 =? 0xF0 then 0x90 else 0x80.

Definition second_hi (b0 : Z) : Z :=
  if b0 =? 0xED then 0x9F else if b0 =? 0xF4 then 0x8F else 0xBF.

Definition is_second (b0 b1 : Z) : bool :=
  (second_lo b0 <=? b1) && (b1 <=? second_hi b0).

(** The decoder with the error handler "ignore": a well-formed sequence gives
    its code point; at an ill-formed one the lead byte and the continuation
    bytes accepted so far are dropped and decoding goes on at the byte that
    did not fit; a sequence cut by the end of the input is dropped. It never
    raises. *)
Fixpoint utf8_decode_ignore (bs : bytes) : pystr :=
  match bs with
  | [] => []
  | c0 :: r0 =>
      let b0 := byte_to_Z c0 in
      if b0 <? 0x80 then b0 :: utf8_decode_ignore r0
      else if b0 <? 0xC2 then utf8_decode_ignore r0
      else if b0 <? 0xE0 then
        match r0 with
        | [] => []
        | c1 :: r1 =>
            let b1 := byte_to_Z c1 in
            if is_cont b1
            then ((b0 - 0xC0) * 64 + (b1 - 0x80)) :: utf8_decode_ignore r1
            else utf8_decode_ignore r0
        end
      else if b0 <? 0xF0 then
        match r0 with
        | [] => []
        | c1 :: r1 =>
            let b1 := byte_to_Z c1 in
            if is_second b0 b1 then
              match r1 with
              | [] => []
              | c2 :: r2 =>
                  let b2 := byte_to_Z c2 in
                  if is_cont b2
                  then ((b0 - 0xE0) * 4096 + (b1 - 0x80) * 64 + (b2 - 0x80))
                         :: utf8_decode_ignore r2
                  else utf8_decode_ignore r1
              end
            else utf8_decode_ignore r0
        end
      else if b0 <? 0xF5 then
        match r0 with
        | [] => []
        | c1 :: r1 =>
            let b1 := byte_to_Z c1 in
            if is_second b0 b1 then
              match r1 with
              | [] => []
              | c2 :: r2 =>
                  let b2 := byte_to_Z c2 in
                  if is_cont b2 then
                    match r2 with
                    | [] => []
                    | c3 :: r3 =>
                        let b3 := byte_to_Z c3 in
                        if is_cont b3
                        then ((b0 - 0xF0) * 262144 + (b1 - 0x80) * 4096
                              + (b2 - 0x80) * 64 + (b3 - 0x80))
                               :: utf8_decode_ignore r3
                        else utf8_decode_ignore r2
                    end
                  else utf8_decode_ignore r1
              end
            else utf8_decode_ignore r0
        end
      else utf8_decode_ignore r0
  end.

(** ** Exceptions and results *)

(** What a socket call raises: [socket.timeout], [socket.error], and the
    [OverflowError] of a call with a size that does not fit the C type of the
    socket library (a [recv] with a buffer size of 2^63). *)
Inductive socket_exn : Type :=
| socket_timeout
| socket_error
| socket_overflow.

(** The exceptions that leave the methods of [LLLSV2Com]:
    - [ConnectionNotOpen]: [Exception("connection is not open!")];
    - [OverflowError]: the telegram does not fit the buffer;
    - [ResponseTooShort]: [Exception("response to short, less than 8 bytes")];
    - [StructError]: [struct.error] of [pack] and [unpack];
    - [ValueError]: a code point that is no byte, or a text that is not the
      value of a member of the enumeration;
    - [GaiError]: the host name was not resolved;
    - [SocketRaised]: what the socket raised, passed on. *)
Inductive exn : Type :=
| ConnectionNotOpen
| OverflowError
| ResponseTooShort
| StructError
| ValueError
| GaiError
| SocketRaised (e : socket_exn).

Inductive result (A : Type) : Type :=
| Ok (a : A)
| Raise (e : exn).

Arguments Ok {A} a.
Arguments Raise {A} e.

Definition of_option {A : Type} (e : exn) (o : option A) : result A :=
  match o with
  | Some a => Ok a
  | None => Raise e
  end.

(** ** The frame *)

(** [map(ord, command)] handed to [bytearray.extend]: every code point has to
    be a byte. *)
Fixpoint bytes_of_str (s : pystr) : option bytes :=
  match s with
  | [] => Some []
  | c :: s' =>
      match byte_of_Z c, bytes_of_str s' with
      | Some b, Some bs => Some (b :: bs)
      | _, _ => None
      end
  end.

(** Lines 163 to 169 of [telegram]: length of the payload, code, payload. *)
Definition encode (command : pystr) (payload : bytes) : result bytes :=
  match pack_L (len payload) with
  | None => Raise StructError
  | Some header =>
      match bytes_of_str command with
      | None => Raise ValueError
      | Some code =>
          Ok (header ++ code ++ (if 0 <? len payload then payload else []))
      end
  end.

(** Line 200: the declared length of the response. *)
Definition decode_length (data_recived : bytes) : result Z :=
  of_option StructError (unpack_L (slice 0 4 data_recived)).

(** Line 204: the text of the response code. *)
Definition decode_code (data_recived : bytes) : pystr :=
  utf8_decode_ignore (slice 4 8 data_recived).

(** The content [response_content] is shorter than the declared length
    before each of the reads that give [chunks], one after the other. *)
Fixpoint missing_until (response_length : Z) (response_content : bytes)
    (chunks : list bytes) : bool :=
  match chunks with
  | [] => true
  | chunk :: chunks' =>
      (len response_content <? response_length)
      && missing_until response_length (response_content ++ chunk) chunks'
  end.

(** ** The modules [const] and [dat_cls] *)

(** Module [const] is imported, its source is not at hand. [telegram] uses of
    it the enumeration [RSP] with the members [RSP.NONE] and [RSP.T_ER], the
    call [RSP(value)] that finds the member with a value ([None] where it
    raises [ValueError]: the set of members is closed), and the comparison
    [is] of two members. *)
Class Const : Type := {
  RSP : Type;
  RSP_NONE : RSP;
  RSP_T_ER : RSP;
  RSP_of_value : pystr -> option RSP;
  RSP_is : forall a b : RSP, {a = b} + {a <> b};
  RSP_NONE_is_not_T_ER : RSP_NONE <> RSP_T_ER
}.

(** Module [dat_cls] is imported as well. [telegram] uses of it the class
    [TransmissionError]: the empty record [TransmissionError()] and the
    decoder [TransmissionError.from_ba]. *)
Class DatCls : Type := {
  TransmissionError : Type;
  TransmissionError_new : TransmissionError;
  TransmissionError_from_ba : bytes -> TransmissionError
}.

(** ** The socket *)

(** What one call of [recv] gives. *)
Inductive recv_outcome : Type :=
| Received (data : bytes)
| RecvRaises (e : socket_exn).

(** A scripted socket. Each plan lists what the successive calls of a method
    will do ([None]: the call returns); a call takes the head of its plan.
    When the plan of [connect], [send] or [close] is used up the call
    returns; when the plan of [recv] is used up nothing arrives any more and
    the call raises [socket.timeout]. [send_calls] and [recv_calls] record
    the argument of every call. The script does not look at the size that
    [recv] is called with. *)
Record Socket : Type := mkSocket {
  connect_plan : list (option socket_exn);
  close_plan : list (option socket_exn);
  send_plan : list (option socket_exn);
  recv_plan : list recv_outcome;
  send_calls : list bytes;
  recv_calls : list Z
}.

Definition sock_connect (s : Socket) : option socket_exn * Socket :=
  match connect_plan s with
  | [] => (None, s)
  | o :: plan =>
      (o, mkSocket plan (close_plan s) (send_plan s) (recv_plan s)
                   (send_calls s) (recv_calls s))
  end.

Definition sock_close (s : Socket) : option socket_exn * Socket :=
  match close_plan s with
  | [] => (None, s)
  | o :: plan =>
      (o, mkSocket (connect_plan s) plan (send_plan s) (recv_plan s)
                   (send_calls s) (recv_calls s))
  end.

Definition sock_send (data : bytes) (s : Socket) : option socket_exn * Socket :=
  let calls := send_calls s ++ [data] in
  match send_plan s with
  | [] =>
      (None, mkSocket (connect_plan s) (close_plan s) [] (recv_plan s)
                      calls (recv_calls s))
  | o :: plan =>
      (o, mkSocket (connect_plan s) (close_plan s) plan (recv_plan s)
                   calls (recv_calls s))
  end.

Definition sock_recv (bufsize : Z) (s : Socket) : recv_outcome * Socket :=
  let calls := recv_calls s ++ [bufsize] in
  match recv_plan s with
  | [] =>
      (RecvRaises socket_timeout,
       mkSocket (connect_plan s) (close_plan s) (send_plan s) []
                (send_calls s) calls)
  | o :: plan =>
      (o, mkSocket (connect_plan s) (close_plan s) (send_plan s) plan
                   (send_calls s) calls)
  end.

(** The next [send] returns. *)
Definition send_returns (s : Socket) : bool :=
  match send_plan s with
  | Some _ :: _ => false
  | _ => true
  end.

(** ** A catalog to run the code on *)

(** The code points of a literal. *)
Definition str (s : String.string) : pystr :=
  map (fun a => Z.of_N (Ascii.N_of_ascii a)) (String.list_ascii_of_string s).

Definition pystr_eqb (a b : pystr) : bool :=
  if list_eq_dec Z.eq_dec a b then true else false.

(** Modelled from the spec: the catalog of response codes (module [const],
    not among the sources) is a closed set of 4-character codes with a
    sentinel for no response and a code for the error response. This catalog
    has these two and one code of an ordinary response; the value of a member
    is its name. *)
Inductive sample_rsp : Type :=
| sample_NONE
| sample_T_ER
| sample_T_OK.

Definition sample_rsp_of_value (v : pystr) : option sample_rsp :=
  if pystr_eqb v (str "NONE"%string) then Some sample_NONE
  else if pystr_eqb v (str "T_ER"%string) then Some sample_T_ER
  else if pystr_eqb v (str "T_OK"%string) then Some sample_T_OK
  else None.

Definition sample_rsp_is (a b : sample_rsp) : {a = b} + {a <> b}.
Proof. decide equality. Defined.

Definition sample_NONE_is_not_T_ER : sample_NONE <> sample_T_ER.
Proof. discriminate. Defined.

#[export] Instance sample_const : Const := {|
  RSP := sample_rsp;
  RSP_NONE := sample_NONE;
  RSP_T_ER := sample_T_ER;
  RSP_of_value := sample_rsp_of_value;
  RSP_is := sample_rsp_is;
  RSP_NONE_is_not_T_ER := sample_NONE_is_not_T_ER
|}.

(** Modelled from the spec: the error record (module [dat_cls], not among the
    sources) is opaque but for being empty or decoded from the content of an
    error response. This record keeps the content it was decoded from. *)
Inductive sample_error : Type :=
| sample_no_error
| sample_error_of (content : bytes).

#[export] Instance sample_dat_cls : DatCls := {|
  TransmissionError := sample_error;
  TransmissionError_new := sample_no_error;
  TransmissionError_from_ba := sample_error_of
|}.

(** ** Class [LLLSV2Com] *)

Definition DEFAULT_PORT : Z := 19000.

Definition DEFAULT_BUFFER_SIZE : Z := 256.

Section LLLSV2Com.

Context {const : Const} {dat_cls : DatCls}.

(** The attributes of an object. *)
Record LLLSV2Com : Type := mkCom {
  _host_ip : pystr;
  _port : Z;
  _buffer_size : Z;
  _tcpsock : Socket;
  _is_connected : bool;
  _last_lsv2_response : RSP;
  _last_error : TransmissionError
}.

Definition set_port (v : Z) (self : LLLSV2Com) : LLLSV2Com :=
  mkCom (_host_ip self) v (_buffer_size self) (_tcpsock self)
        (_is_connected self) (_last_lsv2_response self) (_last_error self).

Definition set__buffer_size (v : Z) (self : LLLSV2Com) : LLLSV2Com :=
  mkCom (_host_ip self) (_port self) v (_tcpsock self)
        (_is_connected self) (_last_lsv2_response self) (_last_error self).

Definition set_tcpsock (v : Socket) (self : LLLSV2Com) : LLLSV2Com :=
  mkCom (_host_ip self) (_port self) (_buffer_size self) v
        (_is_connected self) (_last_lsv2_response self) (_last_error self).

Definition set_is_connected (v : bool) (self : LLLSV2Com) : LLLSV2Com :=
  mkCom (_host_ip self) (_port self) (_buffer_size self) (_tcpsock self)
        v (_last_lsv2_response self) (_last_error self).

Definition set_last_lsv2_response (v : RSP) (self : LLLSV2Com) : LLLSV2Com :=
  mkCom (_host_ip self) (_port self) (_buffer_size self) (_tcpsock self)
        (_is_connected self) v (_last_error self).

Definition set_last_error (v : TransmissionError) (self : LLLSV2Com)
  : LLLSV2Com :=
  mkCom (_host_ip self) (_port self) (_buffer_size self) (_tcpsock self)
        (_is_connected self) (_last_lsv2_response self) v.

(** *** Methods: a state and error monad over the object *)

Definition M (A : Type) : Type := LLLSV2Com -> result A * LLLSV2Com.

Definition ret {A : Type} (a : A) : M A := fun self => (Ok a, self).

Definition raise {A : Type} (e : exn) : M A := fun self => (Raise e, self).

Definition bind {A B : Type} (m : M A) (k : A -> M B) : M B :=
  fun self =>
    match m self with
    | (Ok a, self') => k a self'
    | (Raise e, self') => (Raise e, self')
    end.

Definition attr {A : Type} (f : LLLSV2Com -> A) : M A :=
  fun self => (Ok (f self), self).

Definition assign (f : LLLSV2Com -> LLLSV2Com) : M unit :=
  fun self => (Ok tt, f self).

Definition lift {A : Type} (r : result A) : M A := fun self => (r, self).

Notation "x <- m ;; k" := (bind m (fun x => k))
  (at level 61, m at next level, right associativity).
Notation "m ;; k" := (bind m (fun _ => k))
  (at level 61, right associativity).

(** A socket call that returns nothing: what it raises is passed on. *)
Definition tcpsock_call (f : Socket -> option socket_exn * Socket) : M unit :=
  fun self =>
    match f (_tcpsock self) with
    | (None, sock) => (Ok tt, set_tcpsock sock self)
    | (Some e, sock) => (Raise (SocketRaised e), set_tcpsock sock self)
    end.

(** [self._tcpsock.recv(bufsize)]. *)
Definition tcpsock_recv (bufsize : Z) : M bytes :=
  fun self =>
    match sock_recv bufsize (_tcpsock self) with
    | (Received data, sock) => (Ok data, set_tcpsock sock self)
    | (RecvRaises e, sock) => (Raise (SocketRaised e), set_tcpsock sock self)
    end.

(** [set_buffer_size], lines 112 to 128. *)
Definition set_buffer_size (buffer_size : Z) : M bool :=
  if buffer_size <? 8 then
    assign (set__buffer_size DEFAULT_BUFFER_SIZE) ;;
    ret false
  else
    assign (set__buffer_size buffer_size) ;;
    ret true.

(** [get_buffer_size], lines 130 to 132. *)
Definition get_buffer_size : M Z := attr _buffer_size.

(** The properties [last_response] and [last_error]. *)
Definition last_response : M RSP := attr _last_lsv2_response.

Definition last_error : M TransmissionError := attr _last_error.

(** [__init__], lines 23 to 64. [resolved] is what [gethostbyname] gives and
    [created] the socket that was made and configured, [None] where they
    raise. The buffer size is [-1] until [set_buffer_size] is called with the
    default. *)
Definition init (resolved : option pystr) (port : Z)
    (created : option Socket) : result LLLSV2Com :=
  match resolved with
  | None => Raise GaiError
  | Some host_ip =>
      let port' := if 0 <? port then port else DEFAULT_PORT in
      match created with
      | None => Raise (SocketRaised socket_error)
      | Some sock =>
          let self :=
            mkCom host_ip port' (-1) sock false RSP_NONE
                  TransmissionError_new in
          Ok (snd (set_buffer_size DEFAULT_BUFFER_SIZE self))
      end
  end.

(** [connect], lines 74 to 91. *)
Definition connect : M unit :=
  tcpsock_call sock_connect ;;
  assign (set_is_connected true) ;;
  assign (set_last_lsv2_response RSP_NONE) ;;
  assign (set_last_error TransmissionError_new).

(** [disconnect], lines 93 to 110. *)
Definition disconnect : M unit :=
  tcpsock_call sock_close ;;
  assign (set_is_connected false) ;;
  assign (set_last_lsv2_response RSP_NONE) ;;
  assign (set_last_error TransmissionError_new).

(** The loop of lines 215 to 232, on the plan of [recv] and the record of its
    calls: while the content is shorter than the declared length, one more
    [recv], called with the declared length less the length of
    [data_recived[8:]], and its bytes appended to the content. A [recv] that
    raises ends the exchange. The recursion is on the plan, of which every
    call takes one entry. *)
Fixpoint recv_loop (plan : list recv_outcome) (calls : list Z)
    (response_length : Z) (data_recived response_content : bytes)
    {struct plan} : result bytes * (list recv_outcome * list Z) :=
  if len response_content <? response_length then
    let bufsize := response_length - len (slice_from 8 data_recived) in
    match plan with
    | [] => (Raise (SocketRaised socket_timeout), ([], calls ++ [bufsize]))
    | Received chunk :: plan' =>
        recv_loop plan' (calls ++ [bufsize]) response_length data_recived
                  (response_content ++ chunk)
    | RecvRaises e :: plan' =>
        (Raise (SocketRaised e), (plan', calls ++ [bufsize]))
    end
  else (Ok response_content, (plan, calls)).

Definition response_loop (response_length : Z)
    (data_recived response_content : bytes) : M bytes :=
  fun self =>
    let sock := _tcpsock self in
    let '(r, (plan, calls)) :=
      recv_loop (recv_plan sock) (recv_calls sock) response_length
                data_recived response_content in
    (r, set_tcpsock (mkSocket (connect_plan sock) (close_plan sock)
                              (send_plan sock) plan (send_calls sock) calls)
                    self).

(** Lines 195 to 211: the header of what the first [recv] gave. The result is
    the declared length; the response code goes to [last_response]. *)
Definition read_header (data_recived : bytes) : M Z :=
  if 0 <? len data_recived then
    if 8 <=? len data_recived then
      response_length <- lift (decode_length data_recived) ;;
      rsp <- lift (of_option ValueError
                     (RSP_of_value (decode_code data_recived))) ;;
      assign (set_last_lsv2_response rsp) ;;
      ret response_length
    else raise ResponseTooShort
  else
    assign (set_last_lsv2_response RSP_NONE) ;;
    ret 0.

(** Lines 236 to 239: the error record of the exchange. *)
Definition classify (response_content : bytes) : M unit :=
  rsp <- attr _last_lsv2_response ;;
  if RSP_is rsp RSP_T_ER
  then assign (set_last_error (TransmissionError_from_ba response_content))
  else assign (set_last_error TransmissionError_new).

(** Lines 155 to 159: the payload that is sent; [None] is the Python [None],
    taken as no payload. *)
Definition payload_bytes (payload : option bytes) : bytes :=
  match payload with
  | None => []
  | Some p => if len p =? 0 then [] else p
  end.

(** [telegram], lines 134 to 241. *)
Definition telegram (command : pystr) (payload : option bytes)
    (wait_for_response : bool) : M bytes :=
  is_connected <- attr _is_connected ;;
  if negb is_connected then raise ConnectionNotOpen else
  let payload := payload_bytes payload in
  assign (set_last_lsv2_response RSP_NONE) ;;
  telegram <- lift (encode command payload) ;;
  buffer_size <- attr _buffer_size ;;
  if len telegram >=? buffer_size then raise OverflowError else
  tcpsock_call (sock_send telegram) ;;
  data_recived <- (if wait_for_response
                   then tcpsock_recv buffer_size
                   else ret []) ;;
  response_length <- read_header data_recived ;;
  response_content <- (if 0 <? response_length
                       then response_loop response_length data_recived
                                          (slice_from 8 data_recived)
                       else ret []) ;;
  classify response_content ;;
  ret response_content.

(** *** What a method leaves alone *)

(** Two objects with the same address, buffer size and connected flag. *)
Definition same_settings (a b : LLLSV2Com) : Prop :=
  _host_ip a = _host_ip b
  /\ _port a = _port b
  /\ _buffer_size a = _buffer_size b
  /\ _is_connected a = _is_connected b.

(** A computation that changes none of them, whether it returns or raises. *)
Definition keeps {A : Type} (m : M A) : Prop :=
  forall self, same_settings self (snd (m self)).

(** What has been handed to [send] so far. *)
Definition sent (self : LLLSV2Com) : list bytes :=
  send_calls (_tcpsock self).

(** A computation that calls [send] not once. *)
Definition keeps_sent {A : Type} (m : M A) : Prop :=
  forall self, sent (snd (m self)) = sent self.

(** The rest of [telegram] once the frame is sent, lines 186 to 241. *)
Definition after_send (buffer_size : Z) (wait_for_response : bool)
  : M bytes :=
  bind (if wait_for_response then tcpsock_recv buffer_size else ret [])
       (fun data_recived =>
          bind (read_header data_recived)
               (fun response_length =>
                  bind (if 0 <? response_length
                        then response_loop response_length data_recived
                                           (slice_from 8 data_recived)
                        else ret [])
                       (fun response_content =>
                          bind (classify response_content)
                               (fun _ => ret response_content)))).

(** The rest of [telegram] once the header is read, lines 213 to 241. *)
Definition after_header (response_length : Z) (data_recived : bytes)
  : M bytes :=
  bind (if 0 <? response_length
        then response_loop response_length data_recived
                           (slice_from 8 data_recived)
        else ret [])
       (fun response_content =>
          bind (classify response_content)
               (fun _ => ret response_content)).

(** *** Sequences of calls *)

(** A call of a method from outside, or the peer and the network changing
    what the socket will do next. *)
Inductive call : Type :=
| SetBufferSize (buffer_size : Z)
| GetBufferSize
| Connect
| Disconnect
| Telegram (command : pystr) (payload : option bytes)
           (wait_for_response : bool)
| Peer (sock : Socket).

(** The object after a call, whether the call returned or raised. *)
Definition perform (c : call) (self : LLLSV2Com) : LLLSV2Com :=
  match c with
  | SetBufferSize buffer_size => snd (set_buffer_size buffer_size self)
  | GetBufferSize => snd (get_buffer_size self)
  | Connect => snd (connect self)
  | Disconnect => snd (disconnect self)
  | Telegram command payload wait_for_response =>
      snd (telegram command payload wait_for_response self)
  | Peer sock => set_tcpsock sock self
  end.

Definition run (calls : list call) (self : LLLSV2Com) : LLLSV2Com :=
  fold_left (fun s c => perform c s) calls self.

End LLLSV2Com.

(** ** Objects to run the code on *)

(** A socket on which every call returns and [recv] gives the chunks of
    [arriving], one a call. *)
Definition socket_receiving (arriving : list bytes) : Socket :=
  mkSocket [] [] [] (map Received arriving) [] [].

(** A connected object with the default buffer size. *)
Definition connected_on (sock : Socket) (last : sample_rsp)
    (err : sample_error) : LLLSV2Com :=
  mkCom (str "192.168.56.101"%string) DEFAULT_PORT DEFAULT_BUFFER_SIZE sock
        true last err.

(** The header of a response: declared length and code. *)
Definition header_of (response_length : Z) (code : bytes) : bytes :=
  match pack_L response_length with
  | Some b => b ++ code
  | None => code
  end.

(** The bytes of [T_OK] and of [T_ER]. *)
Definition T_OK_bytes : bytes := [x54; x5f; x4f; x4b].

Definition T_ER_bytes : bytes := [x54; x5f; x45; x52].

(** The command [R_VR]. *)
Definition R_VR : pystr := str "R_VR"%string.

(** A response that declares 100 bytes and comes in four reads: the header,
    then 40, 40 and 20 bytes of content. *)
Definition fragmented : list bytes :=
  [header_of 100 T_OK_bytes; repeat x01 40; repeat x02 40; repeat x03 20].

(** A response that declares 100 bytes, of which 40 come with the second
    read; the third read gives the 60 that are left and 40 bytes more. *)
Definition overlong : list bytes :=
  [header_of 100 T_OK_bytes; repeat x01 40; repeat x02 60 ++ repeat x03 40].

(** A first read of five bytes. *)
Definition five_bytes : list bytes := [[x00; x00; x00; x00; x54]].


(** An error response with three bytes of content, in one read. *)
Definition error_response : list bytes :=
  [header_of 3 T_ER_bytes ++ [x01; x02; x03]].

(** An object as [__init__] leaves it. *)
Definition constructed : LLLSV2Com :=
  mkCom (str "192.168.56.101"%string) DEFAULT_PORT DEFAULT_BUFFER_SIZE
        (socket_receiving []) false sample_NONE sample_no_error.

(** The frame of [R_VR] without payload. *)
Definition R_VR_frame : bytes := [x00; x00; x00; x00; x52; x5f; x56; x52].

(** A socket whose [connect] and [close] raise. *)
Definition socket_refusing : Socket :=
  mkSocket [Some socket_timeout] [Some socket_timeout] [] [] [] [].

(** A socket whose [send] raises. *)
Definition socket_not_sending : Socket :=
  mkSocket [] [] [Some socket_error] [] [] [].

(** A socket whose first [recv] raises. *)
Definition socket_silent : Socket :=
  mkSocket [] [] [] [RecvRaises socket_timeout] [] [].

(** A socket that gives the header and 40 of 100 bytes, and then raises. *)
Definition socket_breaking : Socket :=
  mkSocket [] [] []
           [Received (header_of 100 T_OK_bytes); Received (repeat x01 40);
            RecvRaises socket_timeout] [] [].

(** A header that declares no content, with two bytes after it. *)
Definition empty_response : list bytes :=
  [header_of 0 T_OK_bytes ++ [x01; x02]].

(** A command with a character that is no byte. *)
Definition R_euro : pystr := [82; 95; 8364; 82].

(** A payload of 2^32 bytes, one more than the length field can tell. *)
Definition payload_4GiB : bytes := repeat x00 (Z.to_nat (2 ^ 32)).

(** ** Bytes and [struct] *)

Lemma len_nonneg {A : Type} (l : list A) : 0 <= len l.
Proof. unfold len. lia. Qed.

Lemma len_app {A : Type} (l1 l2 : list A) : len (l1 ++ l2) = len l1 + len l2.
Proof. unfold len. rewrite length_app. lia. Qed.

Lemma byte_to_Z_range (b : byte) : 0 <= byte_to_Z b < 256.
Proof.
  unfold byte_to_Z. pose proof (Byte.to_N_bounded b) as Hb.
  apply N.leb_le in Hb. apply N.leb_le in Hb. lia.
Qed.

Lemma byte_of_Z_to_Z (z : Z) (b : byte) :
  byte_of_Z z = Some b -> byte_to_Z b = z.
Proof.
  unfold byte_of_Z, byte_to_Z.
  destruct ((0 <=? z) && (z <? 256)) eqn:Hr; [|discriminate].
  apply andb_true_iff in Hr. destruct Hr as [H0 _]. apply Z.leb_le in H0.
  intros Hb. apply Byte.to_of_N in Hb. rewrite Hb. now apply Z2N.id.
Qed.

Lemma byte_of_Z_some (z : Z) :
  0 <= z < 256 -> exists b, byte_of_Z z = Some b.
Proof.
  intros Hz. unfold byte_of_Z.
  replace ((0 <=? z) && (z <? 256)) with true
    by (symmetry; apply andb_true_iff; split;
        [apply Z.leb_le | apply Z.ltb_lt]; lia).
  pose proof (Byte.to_of_N_option_map (Z.to_N z)) as Hm.
  replace (N.leb (Z.to_N z) 255) with true in Hm
    by (symmetry; apply N.leb_le; lia).
  destruct (Byte.of_N (Z.to_N z)) as [b|]; [now exists b | discriminate].
Qed.

Lemma byte_wrap_to_Z (z : Z) : byte_to_Z (byte_wrap z) = z mod 2 ^ 8.
Proof.
  change (2 ^ 8) with 256.
  pose proof (Z.mod_pos_bound z 256 ltac:(lia)) as Hm.
  destruct (byte_of_Z_some _ Hm) as [b Hb].
  pose proof (byte_of_Z_to_Z _ _ Hb) as Hz.
  unfold byte_wrap. unfold byte_of_Z in Hb.
  destruct ((0 <=? z mod 256) && (z mod 256 <? 256)); [|discriminate].
  now rewrite Hb.
Qed.

(** [unpack] gives back what [pack] was given. *)
Lemma unpack_pack_L (n : Z) (b : bytes) :
  pack_L n = Some b -> unpack_L b = Some n /\ length b = 4%nat.
Proof.
  unfold pack_L. destruct ((0 <=? n) && (n <? 2 ^ 32)) eqn:Hr; [|discriminate].
  apply andb_true_iff in Hr. destruct Hr as [H0 H1].
  apply Z.leb_le in H0. apply Z.ltb_lt in H1.
  intros Hb. injection Hb as <-. split; [|reflexivity].
  unfold unpack_L. f_equal. rewrite !byte_wrap_to_Z.
  apply Z.bits_inj'. intros i Hi.
  assert (Hhigh : 32 <= i -> Z.testbit n i = false).
  { intros Hge. rewrite <- (Z.mod_small n (2 ^ 32)) by lia.
    rewrite Z.testbit_mod_pow2 by lia.
    replace (i <? 32) with false by (symmetry; apply Z.ltb_ge; lia).
    reflexivity. }
  rewrite !Z.lor_spec.
  destruct (Z_lt_dec i 8); [|destruct (Z_lt_dec i 16); [|destruct (Z_lt_dec i 24)]].
  - rewrite !Z.shiftl_spec_low by lia. rewrite Z.testbit_mod_pow2 by lia.
    replace (i <? 8) with true by (symmetry; apply Z.ltb_lt; lia).
    reflexivity.
  - rewrite !Z.shiftl_spec by lia.
    rewrite (Z.testbit_neg_r _ (i - 16)), (Z.testbit_neg_r _ (i - 24)) by lia.
    rewrite !Z.testbit_mod_pow2 by lia. rewrite Z.shiftr_spec by lia.
    replace (i <? 8) with false by (symmetry; apply Z.ltb_ge; lia).
    replace (i - 8 <? 8) with true by (symmetry; apply Z.ltb_lt; lia).
    replace (i - 8 + 8) with i by lia. simpl. now rewrite orb_false_r.
  - rewrite !Z.shiftl_spec by lia.
    rewrite (Z.testbit_neg_r _ (i - 24)) by lia.
    rewrite !Z.testbit_mod_pow2 by lia. rewrite !Z.shiftr_spec by lia.
    replace (i <? 8) with false by (symmetry; apply Z.ltb_ge; lia).
    replace (i - 8 <? 8) with false by (symmetry; apply Z.ltb_ge; lia).
    replace (i - 16 <? 8) with true by (symmetry; apply Z.ltb_lt; lia).
    replace (i - 16 + 16) with i by lia. simpl. now rewrite orb_false_r.
  - rewrite !Z.shiftl_spec by lia.
    rewrite !Z.testbit_mod_pow2 by lia. rewrite !Z.shiftr_spec by lia.
    replace (i <? 8) with false by (symmetry; apply Z.ltb_ge; lia).
    replace (i - 8 <? 8) with false by (symmetry; apply Z.ltb_ge; lia).
    replace (i - 16 <? 8) with false by (symmetry; apply Z.ltb_ge; lia).
    replace (i - 24 + 24) with i by lia. simpl. rewrite !orb_false_r.
    destruct (Z_lt_dec i 32).
    + replace (i - 24 <? 8) with true by (symmetry; apply Z.ltb_lt; lia).
      reflexivity.
    + replace (i - 24 <? 8) with false by (symmetry; apply Z.ltb_ge; lia).
      symmetry. apply Hhigh. lia.
Qed.

Lemma pack_L_some (n : Z) :
  0 <= n < 2 ^ 32 -> exists b, pack_L n = Some b.
Proof.
  intros Hn. unfold pack_L.
  replace ((0 <=? n) && (n <? 2 ^ 32)) with true
    by (symmetry; apply andb_true_iff; split;
        [apply Z.leb_le | apply Z.ltb_lt]; lia).
  eauto.
Qed.

Lemma pack_L_none (n : Z) : 2 ^ 32 <= n -> pack_L n = None.
Proof.
  intros Hn. unfold pack_L.
  replace (n <? 2 ^ 32) with false by (symmetry; apply Z.ltb_ge; lia).
  now rewrite andb_false_r.
Qed.

(** ** The decoder and the frame *)

Lemma bytes_of_str_length (s : pystr) : forall bs,
  bytes_of_str s = Some bs -> length bs = length s.
Proof.
  induction s as [|c s IH]; simpl; intros bs Hbs.
  - now injection Hbs as <-.
  - destruct (byte_of_Z c); [|discriminate].
    destruct (bytes_of_str s) as [bs'|]; [|discriminate].
    injection Hbs as <-. simpl. f_equal. now apply IH.
Qed.

Lemma bytes_of_str_ascii (s : pystr) :
  isascii s = true -> exists bs, bytes_of_str s = Some bs.
Proof.
  induction s as [|c s IH]; simpl; intros Hs.
  - now exists [].
  - apply andb_true_iff in Hs. destruct Hs as [Hc Hs].
    apply andb_true_iff in Hc. destruct Hc as [Hc0 Hc1].
    apply Z.leb_le in Hc0. apply Z.ltb_lt in Hc1.
    destruct (byte_of_Z_some c ltac:(lia)) as [b Hb].
    destruct (IH Hs) as [bs Hbs]. rewrite Hb, Hbs. eauto.
Qed.

(** The bytes of an ASCII text decode to the text. *)
Lemma utf8_decode_ascii (s : pystr) : forall bs,
  bytes_of_str s = Some bs -> isascii s = true -> utf8_decode_ignore bs = s.
Proof.
  induction s as [|c s IH]; simpl; intros bs Hbs Hs.
  - now injection Hbs as <-.
  - destruct (byte_of_Z c) as [b|] eqn:Hb; [|discriminate].
    destruct (bytes_of_str s) as [bs'|]; [|discriminate].
    injection Hbs as <-.
    apply andb_true_iff in Hs. destruct Hs as [Hc Hs].
    apply andb_true_iff in Hc. destruct Hc as [_ Hc1].
    apply byte_of_Z_to_Z in Hb. simpl. rewrite Hb.
    replace (c <? 128) with true by (symmetry; exact Hc1).
    f_equal. now apply IH.
Qed.


Lemma payload_or_empty (payload : bytes) :
  (if 0 <? len payload then payload else []) = payload.
Proof.
  destruct payload as [|b p]; [reflexivity|].
  replace (0 <? len (b :: p)) with true; [reflexivity|].
  symmetry. apply Z.ltb_lt. unfold len. simpl length. lia.
Qed.

(** The three parts of a frame. *)
Lemma frame_slices (header code payload : bytes) :
  length header = 4%nat -> length code = 4%nat ->
  slice 0 4 (header ++ code ++ payload) = header
  /\ slice 4 8 (header ++ code ++ payload) = code
  /\ slice_from 8 (header ++ code ++ payload) = payload.
Proof.
  intros Hh Hc.
  destruct header as [|h0 [|h1 [|h2 [|h3 [|? ?]]]]]; try discriminate.
  destruct code as [|c0 [|c1 [|c2 [|c3 [|? ?]]]]]; try discriminate.
  repeat split.
Qed.

Lemma len_payload_4GiB : len payload_4GiB = 2 ^ 32.
Proof.
  unfold len, payload_4GiB. rewrite repeat_length.
  apply Z2Nat.id. apply Z.pow_nonneg. lia.
Qed.

(** C3, as amended. For every command of four ASCII characters and every
    payload shorter than [buffer_size - 8] and shorter than 2^32, the frame is
    built, is shorter than the buffer size, and is read back as it was made:
    the declared length is the length of the payload alone, the code is the
    command and the bytes after the first eight are the payload. *)
Theorem frame_round_trip (command : pystr) (payload : bytes)
    (buffer_size : Z) :
  length command = 4%nat ->
  isascii command = true ->
  len payload < buffer_size - 8 ->
  len payload < 2 ^ 32 ->
  exists frame,
    encode command payload = Ok frame
    /\ len frame = 8 + len payload
    /\ len frame < buffer_size
    /\ decode_length frame = Ok (len payload)
    /\ decode_code frame = command
    /\ slice_from 8 frame = payload.
Proof.
  intros Hlen Hascii Hbuf H32.
  destruct (pack_L_some (len payload)) as [header Hheader];
    [pose proof (len_nonneg payload); lia|].
  destruct (bytes_of_str_ascii _ Hascii) as [code Hcode].
  destruct (unpack_pack_L _ _ Hheader) as [Hunpack Hh4].
  pose proof (bytes_of_str_length _ _ Hcode) as Hc4. rewrite Hlen in Hc4.
  destruct (frame_slices _ _ payload Hh4 Hc4) as (Hs0 & Hs4 & Hs8).
  exists (header ++ code ++ payload).
  assert (Hframe : len (header ++ code ++ payload) = 8 + len payload).
  { rewrite !len_app. unfold len at 1 2. rewrite Hh4, Hc4. lia. }
  unfold encode, decode_length, decode_code.
  rewrite Hheader, Hcode, payload_or_empty, Hs0, Hs4, Hs8, Hunpack.
  repeat split; try assumption; try lia.
  now apply utf8_decode_ascii.
Qed.

Lemma frame_round_trip_witness :
  exists frame,
    encode R_VR [x01; x02] = Ok frame
    /\ len frame = 8 + len [x01; x02]
    /\ len frame < DEFAULT_BUFFER_SIZE
    /\ decode_length frame = Ok (len [x01; x02])
    /\ decode_code frame = R_VR
    /\ slice_from 8 frame = [x01; x02].
Proof.
  apply (frame_round_trip R_VR [x01; x02] DEFAULT_BUFFER_SIZE);
    reflexivity.
Defined.

(** C3 as it was stated fails: with a buffer size of 2^32 + 9 a payload of
    2^32 bytes is shorter than [buffer_size - 8], and building its frame
    raises [struct.error], so that there is no header to decode. *)
Lemma frame_round_trip_fails_at_4GiB :
  length R_VR = 4%nat
  /\ isascii R_VR = true
  /\ 0 <= len payload_4GiB < (2 ^ 32 + 9) - 8
  /\ encode R_VR payload_4GiB = Raise StructError
  /\ ~ (exists frame, encode R_VR payload_4GiB = Ok frame).
Proof.
  assert (He : encode R_VR payload_4GiB = Raise StructError).
  { unfold encode. rewrite len_payload_4GiB.
    rewrite pack_L_none by lia. reflexivity. }
  split; [reflexivity|]. split; [reflexivity|].
  split; [rewrite len_payload_4GiB; lia|].
  split; [exact He|].
  intros [frame Hframe]. rewrite He in Hframe. discriminate.
Qed.

(** ** The object *)

Section Properties.

Context {const : Const} {dat_cls : DatCls}.

(** *** Settings kept by the steps of a method *)

Lemma same_settings_refl (self : LLLSV2Com) : same_settings self self.
Proof. repeat split. Qed.

Lemma same_settings_trans (a b c : LLLSV2Com) :
  same_settings a b -> same_settings b c -> same_settings a c.
Proof.
  unfold same_settings. intros (H1 & H2 & H3 & H4) (K1 & K2 & K3 & K4).
  repeat split; congruence.
Qed.

Lemma keeps_ret {A : Type} (a : A) : keeps (ret a).
Proof. intros self. apply same_settings_refl. Qed.

Lemma keeps_raise {A : Type} (e : exn) : keeps (@raise _ _ A e).
Proof. intros self. apply same_settings_refl. Qed.

Lemma keeps_lift {A : Type} (r : result A) : keeps (lift r).
Proof. intros self. apply same_settings_refl. Qed.

Lemma keeps_attr {A : Type} (f : LLLSV2Com -> A) : keeps (attr f).
Proof. intros self. apply same_settings_refl. Qed.

Lemma keeps_bind {A B : Type} (m : M A) (k : A -> M B) :
  keeps m -> (forall a, keeps (k a)) -> keeps (bind m k).
Proof.
  intros Hm Hk self. unfold bind. specialize (Hm self).
  destruct (m self) as [[a|e] self']; simpl in *; [|exact Hm].
  eapply same_settings_trans; [exact Hm | apply Hk].
Qed.

Lemma keeps_if {A : Type} (b : bool) (m1 m2 : M A) :
  keeps m1 -> keeps m2 -> keeps (if b then m1 else m2).
Proof. now destruct b. Qed.

Lemma keeps_last_lsv2_response (rsp : RSP) :
  keeps (assign (set_last_lsv2_response rsp)).
Proof. intros self. repeat split. Qed.

Lemma keeps_last_error (err : TransmissionError) :
  keeps (assign (set_last_error err)).
Proof. intros self. repeat split. Qed.

Lemma keeps_tcpsock_call (f : Socket -> option socket_exn * Socket) :
  keeps (tcpsock_call f).
Proof.
  intros self. unfold tcpsock_call.
  destruct (f (_tcpsock self)) as [[e|] sock]; repeat split.
Qed.

Lemma keeps_tcpsock_recv (bufsize : Z) : keeps (tcpsock_recv bufsize).
Proof.
  intros self. unfold tcpsock_recv.
  destruct (sock_recv bufsize (_tcpsock self)) as [[data|e] sock];
    repeat split.
Qed.

Lemma keeps_response_loop (response_length : Z)
    (data_recived response_content : bytes) :
  keeps (response_loop response_length data_recived response_content).
Proof.
  intros self. unfold response_loop.
  destruct (recv_loop _ _ _ _ _) as [r [plan calls]]. repeat split.
Qed.

Create HintDb keeps.

#[local] Hint Resolve keeps_ret keeps_raise keeps_lift keeps_attr keeps_if
  keeps_last_lsv2_response keeps_last_error keeps_tcpsock_call
  keeps_tcpsock_recv keeps_response_loop : keeps.

Ltac keeps_steps :=
  repeat first
    [ apply keeps_bind; [|intros ?]
    | apply keeps_if
    | match goal with
      | |- keeps (if ?c then _ else _) => destruct c
      end
    | solve [auto with keeps] ].

Lemma keeps_read_header (data_recived : bytes) :
  keeps (read_header data_recived).
Proof. unfold read_header. keeps_steps. Qed.

Lemma keeps_classify (response_content : bytes) :
  keeps (classify response_content).
Proof. unfold classify. keeps_steps. Qed.

(** [telegram] changes neither the address, nor the buffer size, nor the
    connected flag, however it ends. *)
Lemma keeps_telegram (command : pystr) (payload : option bytes)
    (wait_for_response : bool) :
  keeps (telegram command payload wait_for_response).
Proof.
  pose proof keeps_read_header. pose proof keeps_classify.
  unfold telegram. keeps_steps.
Qed.

(** The buffer size after a call is the one before, but for a call of
    [set_buffer_size]. *)
Lemma perform_buffer_size (c : call) (self : LLLSV2Com) :
  8 <= _buffer_size self -> 8 <= _buffer_size (perform c self).
Proof.
  intros Hself. destruct c as [x| | | |command payload wait|sock]; simpl.
  - unfold set_buffer_size. destruct (x <? 8) eqn:Hx; simpl.
    + unfold DEFAULT_BUFFER_SIZE. lia.
    + apply Z.ltb_ge in Hx. lia.
  - exact Hself.
  - unfold connect, bind, tcpsock_call, assign.
    destruct (sock_connect (_tcpsock self)) as [[e|] sock]; exact Hself.
  - unfold disconnect, bind, tcpsock_call, assign.
    destruct (sock_close (_tcpsock self)) as [[e|] sock]; exact Hself.
  - destruct (keeps_telegram command payload wait self) as (_ & _ & <- & _).
    exact Hself.
  - exact Hself.
Qed.

(** *** The buffer size *)

(** C5. [set_buffer_size(x)] with [x < 8] returns [False] and leaves the
    buffer size at the default of 256; with [x >= 8] it returns [True] and
    leaves the buffer size at [x]. *)
Theorem set_buffer_size_floor (self : LLLSV2Com) (x : Z) :
  let accepted := fst (set_buffer_size x self) in
  let size := fst (get_buffer_size (snd (set_buffer_size x self))) in
  if x <? 8
  then accepted = Ok false /\ size = Ok DEFAULT_BUFFER_SIZE
       /\ DEFAULT_BUFFER_SIZE = 256
  else accepted = Ok true /\ size = Ok x.
Proof.
  unfold set_buffer_size. destruct (x <? 8); repeat split.
Qed.

Lemma init_buffer_size (resolved : option pystr) (port : Z)
    (created : option Socket) (self : LLLSV2Com) :
  init resolved port created = Ok self ->
  _buffer_size self = DEFAULT_BUFFER_SIZE.
Proof.
  unfold init. destruct resolved as [host_ip|]; [|discriminate].
  destruct created as [sock|]; [|discriminate].
  intros Hself. injection Hself as <-. reflexivity.
Qed.

Lemma run_buffer_size (calls : list call) : forall self,
  8 <= _buffer_size self -> 8 <= _buffer_size (run calls self).
Proof.
  induction calls as [|c calls IH]; intros self Hself; [exact Hself|].
  simpl. apply IH. now apply perform_buffer_size.
Qed.

(** C6. After the construction and after every sequence of calls of
    [set_buffer_size], [get_buffer_size], [connect], [disconnect] and
    [telegram], returning or raising, and whatever the socket does in
    between, [get_buffer_size()] returns a size of at least 8. *)
Theorem buffer_size_at_least_8 (resolved : option pystr) (port : Z)
    (created : option Socket) (self : LLLSV2Com) (calls : list call) :
  init resolved port created = Ok self ->
  exists size,
    fst (get_buffer_size (run calls self)) = Ok size /\ 8 <= size.
Proof.
  intros Hinit. exists (_buffer_size (run calls self)).
  split; [reflexivity|]. apply run_buffer_size.
  rewrite (init_buffer_size _ _ _ _ Hinit). unfold DEFAULT_BUFFER_SIZE. lia.
Qed.

(** *** The socket *)

Lemma sock_send_returns (data : bytes) (sock : Socket) :
  send_returns sock = true ->
  fst (sock_send data sock) = None
  /\ recv_plan (snd (sock_send data sock)) = recv_plan sock
  /\ recv_calls (snd (sock_send data sock)) = recv_calls sock
  /\ send_calls (snd (sock_send data sock)) = send_calls sock ++ [data].
Proof.
  unfold send_returns, sock_send.
  destruct (send_plan sock) as [|[e|] plan]; try discriminate;
    repeat split.
Qed.

Lemma sock_recv_received (bufsize : Z) (sock : Socket) (data : bytes)
    (plan : list recv_outcome) :
  recv_plan sock = Received data :: plan ->
  fst (sock_recv bufsize sock) = Received data
  /\ recv_plan (snd (sock_recv bufsize sock)) = plan
  /\ recv_calls (snd (sock_recv bufsize sock)) = recv_calls sock ++ [bufsize]
  /\ send_calls (snd (sock_recv bufsize sock)) = send_calls sock.
Proof.
  unfold sock_recv. intros ->. repeat split.
Qed.

(** The loop is the [while] of the source: it is over when the content is as
    long as declared or longer, and else calls [recv] once and goes on with
    what arrived appended. *)
Lemma response_loop_unfold (response_length : Z)
    (data_recived response_content : bytes) (self : LLLSV2Com) :
  response_loop response_length data_recived response_content self =
  if len response_content <? response_length then
    bind (tcpsock_recv (response_length - len (slice_from 8 data_recived)))
         (fun chunk =>
            response_loop response_length data_recived
                          (response_content ++ chunk))
         self
  else ret response_content self.
Proof.
  unfold response_loop, bind, tcpsock_recv, sock_recv, ret.
  destruct self as [h p b [cp clp sp rp sc rc] c l e]. simpl.
  destruct rp as [|[chunk|ex] plan]; simpl;
    destruct (len response_content <? response_length); reflexivity.
Qed.

(** The loop touches the socket only. *)
Lemma response_loop_attrs (response_length : Z)
    (data_recived response_content : bytes) (self : LLLSV2Com) :
  let self' :=
    snd (response_loop response_length data_recived response_content self) in
  _last_lsv2_response self' = _last_lsv2_response self
  /\ _last_error self' = _last_error self
  /\ send_calls (_tcpsock self') = send_calls (_tcpsock self).
Proof.
  unfold response_loop.
  destruct (recv_loop _ _ _ _ _) as [r [plan calls]]. repeat split.
Qed.

(** *** The exchange *)

(** The first half of [telegram]: on a connected object, with a frame that
    fits the buffer and a [send] that returns, the frame has been sent,
    [last_response] is [RSP.NONE], and the exchange goes on with receiving. *)
Lemma telegram_sent (command : pystr) (payload : option bytes)
    (wait_for_response : bool) (frame : bytes) (self : LLLSV2Com) :
  _is_connected self = true ->
  encode command (payload_bytes payload) = Ok frame ->
  len frame < _buffer_size self ->
  send_returns (_tcpsock self) = true ->
  telegram command payload wait_for_response self =
  bind (if wait_for_response
        then tcpsock_recv (_buffer_size self)
        else ret [])
       (fun data_recived =>
          bind (read_header data_recived)
               (fun response_length =>
                  bind (if 0 <? response_length
                        then response_loop response_length data_recived
                                           (slice_from 8 data_recived)
                        else ret [])
                       (fun response_content =>
                          bind (classify response_content)
                               (fun _ => ret response_content))))
       (set_tcpsock (snd (sock_send frame (_tcpsock self)))
                    (set_last_lsv2_response RSP_NONE self)).
Proof.
  intros Hc He Hfit Hs.
  destruct (sock_send_returns frame _ Hs) as (Hnone & _).
  unfold telegram.
  unfold bind at 1, attr at 1. rewrite Hc. cbn [negb].
  unfold bind at 1, assign at 1.
  unfold bind at 1, lift at 1. rewrite He.
  unfold bind at 1, attr at 1. cbn [_buffer_size set_last_lsv2_response].
  replace (len frame >=? _buffer_size self) with false
    by (symmetry; rewrite Z.geb_leb; apply Z.leb_gt; exact Hfit).
  unfold bind at 1, tcpsock_call at 1.
  cbn [_tcpsock set_last_lsv2_response].
  destruct (sock_send frame (_tcpsock self)) as [o sock]. simpl in Hnone.
  subst o. reflexivity.
Qed.

Lemma classify_spec (response_content : bytes) (self : LLLSV2Com) :
  classify response_content self =
  (Ok tt,
   set_last_error
     (if RSP_is (_last_lsv2_response self) RSP_T_ER
      then TransmissionError_from_ba response_content
      else TransmissionError_new) self).
Proof.
  unfold classify, bind, attr, assign.
  now destruct (RSP_is (_last_lsv2_response self) RSP_T_ER).
Qed.

(** With eight bytes or more the declared length is read, and fits 32 bits. *)
Lemma decode_length_ok (data_recived : bytes) :
  8 <= len data_recived ->
  exists n, decode_length data_recived = Ok n.
Proof.
  intros Hlen. unfold len in Hlen.
  destruct data_recived as [|b3 [|b2 [|b1 [|b0 rest]]]];
    simpl in Hlen; try lia.
  unfold decode_length, slice. simpl. eauto.
Qed.


Lemma sock_send_none (data : bytes) (sock : Socket) :
  fst (sock_send data sock) = None -> send_returns sock = true.
Proof.
  unfold sock_send, send_returns.
  destruct (send_plan sock) as [|[e|] plan]; simpl; congruence.
Qed.

(** A [telegram] that returns was called on a connected object, built a
    frame that fits the buffer, and sent it. *)
Lemma telegram_returns_sent (command : pystr) (payload : option bytes)
    (wait_for_response : bool) (self : LLLSV2Com)
    (response_content : bytes) :
  fst (telegram command payload wait_for_response self)
  = Ok response_content ->
  exists frame,
    _is_connected self = true
    /\ encode command (payload_bytes payload) = Ok frame
    /\ len frame < _buffer_size self
    /\ send_returns (_tcpsock self) = true.
Proof.
  intros H. unfold telegram in H.
  unfold bind at 1, attr at 1 in H.
  destruct (_is_connected self) eqn:Hc; cbn [negb] in H; [|discriminate H].
  unfold bind at 1, assign at 1 in H.
  unfold bind at 1, lift at 1 in H.
  destruct (encode command (payload_bytes payload)) as [frame|e] eqn:He;
    [|discriminate H].
  unfold bind at 1, attr at 1 in H.
  cbn [_buffer_size set_last_lsv2_response] in H.
  destruct (len frame >=? _buffer_size self) eqn:Hfit; [discriminate H|].
  unfold bind at 1, tcpsock_call at 1 in H.
  cbn [_tcpsock set_last_lsv2_response] in H.
  destruct (sock_send frame (_tcpsock self)) as [[e|] sock] eqn:Hsend;
    [discriminate H|].
  exists frame. repeat split.
  - rewrite Z.geb_leb in Hfit. now apply Z.leb_gt in Hfit.
  - apply (sock_send_none frame). now rewrite Hsend.
Qed.

(** The whole of an exchange without a reply. *)
Lemma telegram_no_reply_eq (command : pystr) (payload : option bytes)
    (frame : bytes) (self : LLLSV2Com) :
  _is_connected self = true ->
  encode command (payload_bytes payload) = Ok frame ->
  len frame < _buffer_size self ->
  send_returns (_tcpsock self) = true ->
  telegram command payload false self =
  (Ok [],
   set_last_error TransmissionError_new
     (set_last_lsv2_response RSP_NONE
        (set_tcpsock (snd (sock_send frame (_tcpsock self)))
                     (set_last_lsv2_response RSP_NONE self)))).
Proof.
  intros Hc He Hfit Hs. rewrite (telegram_sent _ _ _ _ _ Hc He Hfit Hs).
  unfold read_header, bind, ret, assign.
  cbv beta iota zeta delta [len length Z.of_nat Z.ltb Z.compare].
  rewrite classify_spec. cbn [_last_lsv2_response set_last_lsv2_response].
  destruct (RSP_is RSP_NONE RSP_T_ER) as [Heq|Hne]; [|reflexivity].
  now destruct (RSP_NONE_is_not_T_ER Heq).
Qed.

(** C4. On a connected object, a frame (header and payload) as long as the
    buffer size or longer makes [telegram] raise [OverflowError], and the
    socket is as it was: nothing was sent. *)
Theorem telegram_too_large (command : pystr) (payload : option bytes)
    (wait_for_response : bool) (frame : bytes) (self : LLLSV2Com) :
  _is_connected self = true ->
  encode command (payload_bytes payload) = Ok frame ->
  _buffer_size self <= len frame ->
  let r := telegram command payload wait_for_response self in
  fst r = Raise OverflowError
  /\ _tcpsock (snd r) = _tcpsock self
  /\ send_calls (_tcpsock (snd r)) = send_calls (_tcpsock self).
Proof.
  intros Hc He Hbig.
  assert (Hr : telegram command payload wait_for_response self =
               (Raise OverflowError, set_last_lsv2_response RSP_NONE self)).
  { unfold telegram.
    unfold bind at 1, attr at 1. rewrite Hc. cbn [negb].
    unfold bind at 1, assign at 1.
    unfold bind at 1, lift at 1. rewrite He.
    unfold bind at 1, attr at 1. cbn [_buffer_size set_last_lsv2_response].
    replace (len frame >=? _buffer_size self) with true
      by (symmetry; rewrite Z.geb_leb; apply Z.leb_le; exact Hbig).
    reflexivity. }
  cbv zeta. rewrite Hr. repeat split.
Qed.

(** C7. On a connected object, with a frame that fits and a [send] that
    returns, [telegram] called with [wait_for_response=False] returns an
    empty payload, calls [recv] not once and leaves [last_response] at
    [RSP.NONE]. *)
Theorem telegram_no_reply (command : pystr) (payload : option bytes)
    (frame : bytes) (self : LLLSV2Com) :
  _is_connected self = true ->
  encode command (payload_bytes payload) = Ok frame ->
  len frame < _buffer_size self ->
  send_returns (_tcpsock self) = true ->
  let r := telegram command payload false self in
  fst r = Ok []
  /\ recv_calls (_tcpsock (snd r)) = recv_calls (_tcpsock self)
  /\ recv_plan (_tcpsock (snd r)) = recv_plan (_tcpsock self)
  /\ send_calls (_tcpsock (snd r)) = send_calls (_tcpsock self) ++ [frame]
  /\ fst (last_response (snd r)) = Ok RSP_NONE.
Proof.
  intros Hc He Hfit Hs.
  destruct (sock_send_returns frame _ Hs) as (_ & Hplan & Hcalls & Hsent).
  cbv zeta. rewrite (telegram_no_reply_eq _ _ _ _ Hc He Hfit Hs).
  repeat split; assumption.
Qed.

(** C10. A call of [telegram] with [wait_for_response=False] that returns
    leaves the empty error record in [last_error], whatever was there
    before, and the buffer size and the connected flag as they were. *)
Theorem telegram_no_reply_resets_last_error (command : pystr)
    (payload : option bytes) (self : LLLSV2Com) (response_content : bytes) :
  fst (telegram command payload false self) = Ok response_content ->
  let self' := snd (telegram command payload false self) in
  fst (last_error self') = Ok TransmissionError_new
  /\ _buffer_size self' = _buffer_size self
  /\ _is_connected self' = _is_connected self.
Proof.
  intros Hret. cbv zeta.
  destruct (keeps_telegram command payload false self) as (_ & _ & Hb & Hc).
  split; [|split; congruence].
  destruct (telegram_returns_sent _ _ _ _ _ Hret)
    as (frame & Hconn & He & Hfit & Hs).
  now rewrite (telegram_no_reply_eq _ _ _ _ Hconn He Hfit Hs).
Qed.

(** The second half of [telegram] when it waits and the first [recv] gives
    [data_recived]: the exchange goes on with the header. *)
Lemma telegram_received (command : pystr) (payload : option bytes)
    (frame data_recived : bytes) (plan : list recv_outcome)
    (self : LLLSV2Com) :
  _is_connected self = true ->
  encode command (payload_bytes payload) = Ok frame ->
  len frame < _buffer_size self ->
  send_returns (_tcpsock self) = true ->
  recv_plan (_tcpsock self) = Received data_recived :: plan ->
  telegram command payload true self =
  bind (read_header data_recived)
       (fun response_length =>
          bind (if 0 <? response_length
                then response_loop response_length data_recived
                                   (slice_from 8 data_recived)
                else ret [])
               (fun response_content =>
                  bind (classify response_content)
                       (fun _ => ret response_content)))
       (set_tcpsock
          (snd (sock_recv (_buffer_size self)
                          (snd (sock_send frame (_tcpsock self)))))
          (set_last_lsv2_response RSP_NONE self)).
Proof.
  intros Hc He Hfit Hs Hplan.
  rewrite (telegram_sent _ _ _ _ _ Hc He Hfit Hs).
  destruct (sock_send_returns frame _ Hs) as (_ & Hplan' & _).
  rewrite Hplan in Hplan'.
  destruct (sock_recv_received (_buffer_size self) _ _ _ Hplan')
    as (Hdata & _).
  unfold bind at 1, tcpsock_recv at 1.
  cbn [_tcpsock set_tcpsock set_last_lsv2_response].
  destruct (sock_recv _ _) as [o sock]. simpl in Hdata. subst o.
  reflexivity.
Qed.

Lemma read_header_short (data_recived : bytes) (self : LLLSV2Com) :
  0 < len data_recived < 8 ->
  read_header data_recived self = (Raise ResponseTooShort, self).
Proof.
  intros Hlen. unfold read_header.
  replace (0 <? len data_recived) with true
    by (symmetry; apply Z.ltb_lt; lia).
  replace (8 <=? len data_recived) with false
    by (symmetry; apply Z.leb_gt; lia).
  reflexivity.
Qed.

Lemma read_header_full (data_recived : bytes) (self : LLLSV2Com) :
  8 <= len data_recived ->
  exists response_length,
    read_header data_recived self =
    match RSP_of_value (decode_code data_recived) with
    | Some rsp => (Ok response_length, set_last_lsv2_response rsp self)
    | None => (Raise ValueError, self)
    end.
Proof.
  intros Hlen. destruct (decode_length_ok _ Hlen) as [n Hn]. exists n.
  unfold read_header.
  replace (0 <? len data_recived) with true
    by (symmetry; apply Z.ltb_lt; lia).
  replace (8 <=? len data_recived) with true
    by (symmetry; apply Z.leb_le; lia).
  unfold bind, lift, assign, ret. rewrite Hn.
  now destruct (RSP_of_value (decode_code data_recived)).
Qed.

(** C2, as amended. On a connected object, with a frame that fits and a
    [send] that returns, a first [recv] of one to seven bytes makes
    [telegram] raise the exception of a response too short;
    [last_response] is then [RSP.NONE], to which line 161 has set it, and the
    error record is the one from before the call. *)
Theorem telegram_short_header (command : pystr) (payload : option bytes)
    (frame data_recived : bytes) (plan : list recv_outcome)
    (self : LLLSV2Com) :
  _is_connected self = true ->
  encode command (payload_bytes payload) = Ok frame ->
  len frame < _buffer_size self ->
  send_returns (_tcpsock self) = true ->
  recv_plan (_tcpsock self) = Received data_recived :: plan ->
  0 < len data_recived < 8 ->
  let r := telegram command payload true self in
  fst r = Raise ResponseTooShort
  /\ fst (last_response (snd r)) = Ok RSP_NONE
  /\ fst (last_error (snd r)) = Ok (_last_error self).
Proof.
  intros Hc He Hfit Hs Hplan Hlen. cbv zeta.
  rewrite (telegram_received _ _ _ _ _ _ Hc He Hfit Hs Hplan).
  unfold bind. rewrite (read_header_short _ _ Hlen). repeat split.
Qed.


End Properties.

(** ** The loop *)

(** Every [recv] of the loop is called with the same size, the declared
    length less the length of [data_recived[8:]]. *)
Lemma recv_loop_same_size (plan : list recv_outcome) :
  forall (calls : list Z) (response_length : Z)
         (data_recived response_content : bytes),
  exists k,
    snd (snd (recv_loop plan calls response_length data_recived
                        response_content))
    = calls ++ repeat (response_length - len (slice_from 8 data_recived)) k.
Proof.
  induction plan as [|[chunk|e] plan IH]; intros calls L d c;
    cbn [recv_loop]; destruct (len c <? L); cbn [fst snd].
  - now exists 1%nat.
  - exists 0%nat. cbn [repeat]. now rewrite app_nil_r.
  - destruct (IH (calls ++ [L - len (slice_from 8 d)]) L d (c ++ chunk))
      as [k Hk].
    exists (S k). rewrite Hk, <- app_assoc. reflexivity.
  - exists 0%nat. cbn [repeat]. now rewrite app_nil_r.
  - now exists 1%nat.
  - exists 0%nat. cbn [repeat]. now rewrite app_nil_r.
Qed.

(** When the loop returns, the content is what it started with and what the
    reads gave, and it is as long as declared or longer. *)
Lemma recv_loop_returns (plan : list recv_outcome) :
  forall (calls : list Z) (response_length : Z)
         (data_recived response_content content : bytes),
  fst (recv_loop plan calls response_length data_recived response_content)
  = Ok content ->
  response_length <= len content
  /\ exists more, content = response_content ++ more.
Proof.
  induction plan as [|[chunk|e] plan IH]; intros calls L d c content;
    cbn [recv_loop]; destruct (len c <? L) eqn:Hc; cbn [fst snd];
    intros H; try discriminate H.
  - injection H as <-. apply Z.ltb_ge in Hc. split; [exact Hc|].
    exists []. now rewrite app_nil_r.
  - destruct (IH _ _ _ _ _ H) as [Hlen [more ->]]. split; [exact Hlen|].
    exists (chunk ++ more). now rewrite app_assoc.
  - injection H as <-. apply Z.ltb_ge in Hc. split; [exact Hc|].
    exists []. now rewrite app_nil_r.
  - injection H as <-. apply Z.ltb_ge in Hc. split; [exact Hc|].
    exists []. now rewrite app_nil_r.
Qed.

(** ** The code run on the sample catalog *)

(** C1. The loop does not ask for what is still missing: every [recv] of the
    loop is called with the declared length less the content that came with
    the header. For the response in four reads the payload is the 100 bytes
    and [last_response] the code of the header, with calls of [recv] for 256,
    100, 100 and 100 bytes. When the third read gives the 100 bytes it was
    called for, the loop ends with 140 bytes of content, 40 more than
    declared. *)
Theorem telegram_reads_beyond_declared_length :
  let r := telegram R_VR None true
             (connected_on (socket_receiving fragmented)
                           sample_NONE sample_no_error) in
  let r' := telegram R_VR None true
              (connected_on (socket_receiving overlong)
                            sample_NONE sample_no_error) in
  (fst r = Ok (repeat x01 40 ++ repeat x02 40 ++ repeat x03 20)
   /\ fst (last_response (snd r)) = Ok sample_T_OK
   /\ recv_calls (_tcpsock (snd r)) = [256; 100; 100; 100])
  /\ (decode_length (header_of 100 T_OK_bytes) = Ok 100
      /\ fst r' = Ok (repeat x01 40 ++ repeat x02 60 ++ repeat x03 40)
      /\ option_map len (match fst r' with Ok c => Some c | Raise _ => None end)
         = Some 140
      /\ recv_calls (_tcpsock (snd r')) = [256; 100; 100]).
Proof. vm_compute. repeat split. Qed.

(** C2 as it was stated fails: after a first read of five bytes [telegram]
    raises, and [last_response], [T_OK] before the call, is [NONE] after
    it. *)
Lemma telegram_short_header_resets_last_response :
  let self := connected_on (socket_receiving five_bytes)
                           sample_T_OK sample_no_error in
  let r := telegram R_VR None true self in
  _is_connected self = true
  /\ fst r = Raise ResponseTooShort
  /\ fst (last_response self) = Ok sample_T_OK
  /\ fst (last_response (snd r)) = Ok sample_NONE
  /\ fst (last_response (snd r)) <> fst (last_response self).
Proof. vm_compute. repeat split. discriminate. Qed.

Lemma telegram_short_header_witness :
  let r := telegram R_VR None true
             (connected_on (socket_receiving five_bytes)
                           sample_T_OK sample_no_error) in
  fst r = Raise ResponseTooShort
  /\ fst (last_response (snd r)) = Ok RSP_NONE
  /\ fst (last_error (snd r)) = Ok sample_no_error.
Proof.
  apply (telegram_short_header R_VR None
           [x00; x00; x00; x00; x52; x5f; x56; x52]
           [x00; x00; x00; x00; x54] []
           (connected_on (socket_receiving five_bytes)
                         sample_T_OK sample_no_error));
    try reflexivity.
  vm_compute. split; reflexivity.
Defined.

Lemma telegram_too_large_witness :
  let self := connected_on (socket_receiving []) sample_NONE sample_no_error in
  let r := telegram R_VR (Some (repeat x00 248)) true self in
  fst r = Raise OverflowError
  /\ _tcpsock (snd r) = _tcpsock self
  /\ send_calls (_tcpsock (snd r)) = send_calls (_tcpsock self).
Proof.
  apply (telegram_too_large R_VR (Some (repeat x00 248)) true
           ([x00; x00; x00; xf8; x52; x5f; x56; x52] ++ repeat x00 248)
           (connected_on (socket_receiving []) sample_NONE sample_no_error)).
  - reflexivity.
  - reflexivity.
  - vm_compute. discriminate.
Defined.

Lemma buffer_size_at_least_8_witness :
  exists size,
    fst (get_buffer_size
           (run [SetBufferSize 4; Connect; Telegram R_VR None false;
                 SetBufferSize 9; Telegram R_VR (Some [x01]) true;
                 Disconnect; SetBufferSize (-3)]
                constructed)) = Ok size
    /\ 8 <= size.
Proof.
  apply (buffer_size_at_least_8 (Some (str "192.168.56.101"%string)) 19000
           (Some (socket_receiving [])) constructed).
  reflexivity.
Defined.

Lemma telegram_no_reply_witness :
  let self := connected_on (socket_receiving fragmented)
                           sample_T_OK sample_no_error in
  let r := telegram R_VR None false self in
  fst r = Ok []
  /\ recv_calls (_tcpsock (snd r)) = recv_calls (_tcpsock self)
  /\ recv_plan (_tcpsock (snd r)) = recv_plan (_tcpsock self)
  /\ send_calls (_tcpsock (snd r))
     = send_calls (_tcpsock self) ++ [[x00; x00; x00; x00; x52; x5f; x56; x52]]
  /\ fst (last_response (snd r)) = Ok RSP_NONE.
Proof.
  apply (telegram_no_reply R_VR None
           [x00; x00; x00; x00; x52; x5f; x56; x52]
           (connected_on (socket_receiving fragmented)
                         sample_T_OK sample_no_error));
    try reflexivity.
Defined.



Lemma telegram_no_reply_resets_last_error_witness :
  let self := connected_on (socket_receiving [])
                           sample_T_ER (sample_error_of [x01; x02; x03]) in
  let self' := snd (telegram R_VR None false self) in
  fst (last_error self') = Ok TransmissionError_new
  /\ _buffer_size self' = _buffer_size self
  /\ _is_connected self' = _is_connected self.
Proof.
  apply (telegram_no_reply_resets_last_error R_VR None
           (connected_on (socket_receiving [])
                         sample_T_ER (sample_error_of [x01; x02; x03]))
           []).
  reflexivity.
Defined.

(** ** The paths of the exchange *)

Section Paths.

Context {const : Const} {dat_cls : DatCls}.

(** *** What the steps of the exchange send and raise *)

Lemma sock_send_logs (data : bytes) (sock : Socket) :
  send_calls (snd (sock_send data sock)) = send_calls sock ++ [data]
  /\ recv_plan (snd (sock_send data sock)) = recv_plan sock
  /\ recv_calls (snd (sock_send data sock)) = recv_calls sock.
Proof.
  unfold sock_send. destruct (send_plan sock) as [|o plan]; repeat split.
Qed.

Lemma sock_recv_logs (bufsize : Z) (sock : Socket) :
  send_calls (snd (sock_recv bufsize sock)) = send_calls sock
  /\ recv_calls (snd (sock_recv bufsize sock)) = recv_calls sock ++ [bufsize].
Proof.
  unfold sock_recv. destruct (recv_plan sock) as [|o plan]; repeat split.
Qed.

Lemma keeps_sent_ret {A : Type} (a : A) : keeps_sent (ret a).
Proof. intros self. reflexivity. Qed.

Lemma keeps_sent_raise {A : Type} (e : exn) : keeps_sent (@raise _ _ A e).
Proof. intros self. reflexivity. Qed.

Lemma keeps_sent_lift {A : Type} (r : result A) : keeps_sent (lift r).
Proof. intros self. reflexivity. Qed.

Lemma keeps_sent_attr {A : Type} (f : LLLSV2Com -> A) : keeps_sent (attr f).
Proof. intros self. reflexivity. Qed.

Lemma keeps_sent_bind {A B : Type} (m : M A) (k : A -> M B) :
  keeps_sent m -> (forall a, keeps_sent (k a)) -> keeps_sent (bind m k).
Proof.
  intros Hm Hk self. unfold bind. specialize (Hm self).
  destruct (m self) as [[a|e] self']; simpl in *; [|exact Hm].
  now rewrite Hk.
Qed.

Lemma keeps_sent_if {A : Type} (b : bool) (m1 m2 : M A) :
  keeps_sent m1 -> keeps_sent m2 -> keeps_sent (if b then m1 else m2).
Proof. now destruct b. Qed.

Lemma keeps_sent_last_lsv2_response (rsp : RSP) :
  keeps_sent (assign (set_last_lsv2_response rsp)).
Proof. intros self. reflexivity. Qed.

Lemma keeps_sent_last_error (err : TransmissionError) :
  keeps_sent (assign (set_last_error err)).
Proof. intros self. reflexivity. Qed.

Lemma keeps_sent_tcpsock_recv (bufsize : Z) :
  keeps_sent (tcpsock_recv bufsize).
Proof.
  intros self. unfold tcpsock_recv, sent.
  pose proof (proj1 (sock_recv_logs bufsize (_tcpsock self))) as Hs.
  destruct (sock_recv bufsize (_tcpsock self)) as [[data|e] sock];
    exact Hs.
Qed.

Lemma keeps_sent_response_loop (response_length : Z)
    (data_recived response_content : bytes) :
  keeps_sent (response_loop response_length data_recived response_content).
Proof.
  intros self. unfold response_loop, sent.
  destruct (recv_loop _ _ _ _ _) as [r [plan calls]]. reflexivity.
Qed.

Lemma keeps_sent_after_send (buffer_size : Z) (wait_for_response : bool) :
  keeps_sent (after_send buffer_size wait_for_response).
Proof.
  unfold after_send, read_header, classify.
  repeat first
    [ apply keeps_sent_bind; [|intros ?]
    | apply keeps_sent_if
    | match goal with
      | |- keeps_sent (if ?c then _ else _) => destruct c
      end
    | apply keeps_sent_ret | apply keeps_sent_raise | apply keeps_sent_lift
    | apply keeps_sent_attr | apply keeps_sent_last_lsv2_response
    | apply keeps_sent_last_error | apply keeps_sent_tcpsock_recv
    | apply keeps_sent_response_loop ].
Qed.

(** The loop raises what [recv] raises and nothing else. *)
Lemma recv_loop_raises (plan : list recv_outcome) :
  forall (calls : list Z) (response_length : Z)
         (data_recived response_content : bytes) (e : exn),
  fst (recv_loop plan calls response_length data_recived response_content)
  = Raise e ->
  exists x, e = SocketRaised x.
Proof.
  induction plan as [|[chunk|x] plan IH]; intros calls L d c e;
    cbn [recv_loop]; destruct (len c <? L); cbn [fst];
    intros H; try discriminate H.
  - injection H as <-. eauto.
  - exact (IH _ _ _ _ _ H).
  - injection H as <-. eauto.
Qed.

(** [telegram] up to the check of the size: on a connected object with a
    frame that was built. *)
Lemma telegram_encoded (command : pystr) (payload : option bytes)
    (wait_for_response : bool) (frame : bytes) (self : LLLSV2Com) :
  _is_connected self = true ->
  encode command (payload_bytes payload) = Ok frame ->
  telegram command payload wait_for_response self =
  (if len frame >=? _buffer_size self
   then raise OverflowError
   else bind (tcpsock_call (sock_send frame))
             (fun _ => after_send (_buffer_size self) wait_for_response))
    (set_last_lsv2_response RSP_NONE self).
Proof.
  intros Hc He. unfold telegram, after_send.
  unfold bind at 1, attr at 1. rewrite Hc. cbn [negb].
  unfold bind at 1, assign at 1.
  unfold bind at 1, lift at 1. rewrite He.
  unfold bind at 1, attr at 1. cbn [_buffer_size set_last_lsv2_response].
  reflexivity.
Qed.

(** The frame of a command of bytes is four bytes longer than command and
    payload together. *)
Lemma encode_length (command : pystr) (payload code : bytes) :
  bytes_of_str command = Some code ->
  len payload < 2 ^ 32 ->
  exists frame,
    encode command payload = Ok frame
    /\ len frame = 4 + len command + len payload.
Proof.
  intros Hcode H32.
  destruct (pack_L_some (len payload)) as [header Hheader];
    [pose proof (len_nonneg payload); lia|].
  destruct (unpack_pack_L _ _ Hheader) as [_ Hh4].
  pose proof (bytes_of_str_length _ _ Hcode) as Hc.
  exists (header ++ code ++ payload). unfold encode.
  rewrite Hheader, Hcode, payload_or_empty. split; [reflexivity|].
  rewrite !len_app. unfold len at 1 2 4. rewrite Hh4, Hc. lia.
Qed.

Lemma bytes_of_str_not_bytes (command : pystr) :
  (exists c, In c command /\ 256 <= c) -> bytes_of_str command = None.
Proof.
  intros [c [Hin Hc]]. induction command as [|c' command IH];
    [contradiction|].
  simpl. destruct Hin as [->|Hin].
  - unfold byte_of_Z.
    replace (c <? 256) with false by (symmetry; apply Z.ltb_ge; lia).
    now rewrite andb_false_r.
  - rewrite (IH Hin). now destruct (byte_of_Z c').
Qed.

(** *** Before the frame is sent *)

(** X1. On an object that is not connected [telegram] raises the exception
    of a connection not open and the object is as it was: nothing is sent or
    received, and [last_response] is not reset. *)
Theorem telegram_not_connected (command : pystr) (payload : option bytes)
    (wait_for_response : bool) (self : LLLSV2Com) :
  _is_connected self = false ->
  telegram command payload wait_for_response self
  = (Raise ConnectionNotOpen, self).
Proof.
  intros Hc. unfold telegram. unfold bind at 1, attr at 1. now rewrite Hc.
Qed.

(** X2. A command with a character that is no byte makes [telegram] raise
    [ValueError]; nothing is sent, and [last_response] has been reset to
    [RSP.NONE]. *)
Theorem telegram_command_not_bytes (command : pystr)
    (payload : option bytes) (wait_for_response : bool)
    (self : LLLSV2Com) :
  _is_connected self = true ->
  len (payload_bytes payload) < 2 ^ 32 ->
  (exists c, In c command /\ 256 <= c) ->
  let r := telegram command payload wait_for_response self in
  fst r = Raise ValueError
  /\ _tcpsock (snd r) = _tcpsock self
  /\ fst (last_response (snd r)) = Ok RSP_NONE
  /\ fst (last_error (snd r)) = Ok (_last_error self).
Proof.
  intros Hc H32 Hbad.
  assert (He : encode command (payload_bytes payload) = Raise ValueError).
  { unfold encode.
    destruct (pack_L_some (len (payload_bytes payload))) as [header ->];
      [pose proof (len_nonneg (payload_bytes payload)); lia|].
    now rewrite (bytes_of_str_not_bytes _ Hbad). }
  assert (Hr : telegram command payload wait_for_response self
               = (Raise ValueError, set_last_lsv2_response RSP_NONE self)).
  { unfold telegram. unfold bind at 1, attr at 1. rewrite Hc. cbn [negb].
    unfold bind at 1, assign at 1. unfold bind at 1, lift at 1.
    now rewrite He. }
  cbv zeta. rewrite Hr. repeat split.
Qed.

(** X4. With the smallest buffer size that [set_buffer_size] accepts, 8, no
    telegram of a command of four characters can be sent, not even one
    without payload: the frame is 8 bytes at least and [telegram] raises
    [OverflowError]. *)
Theorem telegram_buffer_size_8 (command : pystr) (payload : option bytes)
    (wait_for_response : bool) (self : LLLSV2Com) :
  _is_connected self = true ->
  length command = 4%nat ->
  isascii command = true ->
  len (payload_bytes payload) < 2 ^ 32 ->
  let self8 := snd (set_buffer_size 8 self) in
  let r := telegram command payload wait_for_response self8 in
  fst (set_buffer_size 8 self) = Ok true
  /\ fst r = Raise OverflowError
  /\ sent (snd r) = sent self.
Proof.
  intros Hc H4 Hascii H32. cbv zeta.
  destruct (bytes_of_str_ascii _ Hascii) as [code Hcode].
  destruct (encode_length _ _ _ Hcode H32) as (frame & He & Hlen).
  unfold len at 2 in Hlen. rewrite H4 in Hlen.
  pose proof (len_nonneg (payload_bytes payload)) as Hp.
  split; [reflexivity|].
  assert (Hc8 : _is_connected (snd (set_buffer_size 8 self)) = true)
    by exact Hc.
  rewrite (telegram_encoded _ _ _ _ _ Hc8 He).
  replace (len frame >=? _buffer_size (snd (set_buffer_size 8 self)))
    with true
    by (symmetry; rewrite Z.geb_leb; apply Z.leb_le;
        change (_buffer_size (snd (set_buffer_size 8 self))) with 8; lia).
  split; reflexivity.
Qed.

(** X5. [telegram] leaves the address, the port, the buffer size and the
    connected flag as they were, whatever it is called with and whether it
    returns or raises. *)
Theorem telegram_keeps_settings (command : pystr) (payload : option bytes)
    (wait_for_response : bool) (self : LLLSV2Com) :
  let self' := snd (telegram command payload wait_for_response self) in
  _host_ip self' = _host_ip self
  /\ _port self' = _port self
  /\ fst (get_buffer_size self') = fst (get_buffer_size self)
  /\ _is_connected self' = _is_connected self.
Proof.
  destruct (keeps_telegram command payload wait_for_response self)
    as (H1 & H2 & H3 & H4).
  cbv zeta. unfold get_buffer_size, attr. cbn [fst].
  repeat split; congruence.
Qed.

(** X6. On a connected object with a frame that fits the buffer, [telegram]
    calls [send] once, with the whole frame, and not again: whether [send]
    returns or raises, whether a response is waited for, and however the
    receiving goes. *)
Theorem telegram_sends_once (command : pystr) (payload : option bytes)
    (wait_for_response : bool) (frame : bytes) (self : LLLSV2Com) :
  _is_connected self = true ->
  encode command (payload_bytes payload) = Ok frame ->
  len frame < _buffer_size self ->
  sent (snd (telegram command payload wait_for_response self))
  = sent self ++ [frame].
Proof.
  intros Hc He Hfit. rewrite (telegram_encoded _ _ _ _ _ Hc He).
  replace (len frame >=? _buffer_size self) with false
    by (symmetry; rewrite Z.geb_leb; apply Z.leb_gt; exact Hfit).
  unfold bind, tcpsock_call. cbn [_tcpsock set_last_lsv2_response].
  pose proof (proj1 (sock_send_logs frame (_tcpsock self))) as Hlog.
  destruct (sock_send frame (_tcpsock self)) as [[e|] sock];
    cbn [snd] in Hlog.
  - exact Hlog.
  - rewrite (keeps_sent_after_send (_buffer_size self) wait_for_response).
    exact Hlog.
Qed.

(** X7. When [send] raises, [telegram] raises the same: no [recv] is
    called, [last_response] is [RSP.NONE] and the error record is the one
    from before the call. *)
Theorem telegram_send_raises (command : pystr) (payload : option bytes)
    (wait_for_response : bool) (frame : bytes) (e : socket_exn)
    (plan : list (option socket_exn)) (self : LLLSV2Com) :
  _is_connected self = true ->
  encode command (payload_bytes payload) = Ok frame ->
  len frame < _buffer_size self ->
  send_plan (_tcpsock self) = Some e :: plan ->
  let r := telegram command payload wait_for_response self in
  fst r = Raise (SocketRaised e)
  /\ recv_calls (_tcpsock (snd r)) = recv_calls (_tcpsock self)
  /\ fst (last_response (snd r)) = Ok RSP_NONE
  /\ fst (last_error (snd r)) = Ok (_last_error self).
Proof.
  intros Hc He Hfit Hplan. cbv zeta.
  rewrite (telegram_encoded _ _ _ _ _ Hc He).
  replace (len frame >=? _buffer_size self) with false
    by (symmetry; rewrite Z.geb_leb; apply Z.leb_gt; exact Hfit).
  unfold bind, tcpsock_call, sock_send.
  cbn [_tcpsock set_last_lsv2_response]. rewrite Hplan. repeat split.
Qed.

(** *** The first read *)

(** The socket after the frame is sent and the first [recv] has taken the
    head of the plan. *)
Lemma sock_send_recv (frame : bytes) (bufsize : Z) (sock : Socket)
    (o : recv_outcome) (plan : list recv_outcome) :
  recv_plan sock = o :: plan ->
  let sock' := snd (sock_recv bufsize (snd (sock_send frame sock))) in
  fst (sock_recv bufsize (snd (sock_send frame sock))) = o
  /\ recv_plan sock' = plan
  /\ recv_calls sock' = recv_calls sock ++ [bufsize]
  /\ send_calls sock' = send_calls sock ++ [frame].
Proof.
  intros Hplan. cbv zeta.
  destruct (sock_send_logs frame sock) as (Hs & Hp & Hc).
  rewrite Hplan in Hp. unfold sock_recv at 1 2 3 4. rewrite Hp.
  cbn [fst snd recv_plan recv_calls send_calls]. rewrite Hs, Hc.
  repeat split.
Qed.

(** [telegram] up to the first [recv], when it waits for a response. *)
Lemma telegram_first_recv (command : pystr) (payload : option bytes)
    (frame : bytes) (o : recv_outcome) (plan : list recv_outcome)
    (self : LLLSV2Com) :
  _is_connected self = true ->
  encode command (payload_bytes payload) = Ok frame ->
  len frame < _buffer_size self ->
  send_returns (_tcpsock self) = true ->
  recv_plan (_tcpsock self) = o :: plan ->
  let self1 :=
    set_tcpsock (snd (sock_recv (_buffer_size self)
                                (snd (sock_send frame (_tcpsock self)))))
                (set_last_lsv2_response RSP_NONE self) in
  telegram command payload true self =
  match o with
  | Received data_recived =>
      bind (read_header data_recived)
           (fun response_length => after_header response_length data_recived)
           self1
  | RecvRaises e => (Raise (SocketRaised e), self1)
  end.
Proof.
  intros Hc He Hfit Hs Hplan. cbv zeta.
  rewrite (telegram_sent _ _ _ _ _ Hc He Hfit Hs).
  destruct (sock_send_recv frame (_buffer_size self) _ _ _ Hplan) as (Ho & _).
  unfold bind at 1, tcpsock_recv at 1.
  cbn [_tcpsock set_tcpsock set_last_lsv2_response].
  destruct (sock_recv _ _) as [o' sock]. cbn [fst] in Ho. subst o'.
  destruct o as [data|e]; reflexivity.
Qed.

Lemma read_header_known (data_recived : bytes) (response_length : Z)
    (rsp : RSP) (self : LLLSV2Com) :
  8 <= len data_recived ->
  decode_length data_recived = Ok response_length ->
  RSP_of_value (decode_code data_recived) = Some rsp ->
  read_header data_recived self
  = (Ok response_length, set_last_lsv2_response rsp self).
Proof.
  intros Hlen HL Hrsp. unfold read_header.
  replace (0 <? len data_recived) with true
    by (symmetry; apply Z.ltb_lt; lia).
  replace (8 <=? len data_recived) with true
    by (symmetry; apply Z.leb_le; lia).
  unfold bind, lift, assign, ret. now rewrite HL, Hrsp.
Qed.

(** X8. When the first [recv] gives no byte, [telegram] returns an empty
    payload after this one call of [recv], with [last_response] at
    [RSP.NONE] and the empty error record. *)
Theorem telegram_empty_read (command : pystr) (payload : option bytes)
    (frame : bytes) (plan : list recv_outcome) (self : LLLSV2Com) :
  _is_connected self = true ->
  encode command (payload_bytes payload) = Ok frame ->
  len frame < _buffer_size self ->
  send_returns (_tcpsock self) = true ->
  recv_plan (_tcpsock self) = Received [] :: plan ->
  let r := telegram command payload true self in
  fst r = Ok []
  /\ fst (last_response (snd r)) = Ok RSP_NONE
  /\ fst (last_error (snd r)) = Ok TransmissionError_new
  /\ recv_calls (_tcpsock (snd r))
     = recv_calls (_tcpsock self) ++ [_buffer_size self]
  /\ recv_plan (_tcpsock (snd r)) = plan.
Proof.
  intros Hc He Hfit Hs Hplan. cbv zeta.
  rewrite (telegram_first_recv _ _ _ _ _ _ Hc He Hfit Hs Hplan).
  destruct (sock_send_recv frame (_buffer_size self) _ _ _ Hplan)
    as (_ & Hp & Hcalls & _).
  unfold after_header, read_header, bind, assign, ret.
  cbv beta iota zeta delta [len length Z.of_nat Z.ltb Z.compare].
  rewrite classify_spec.
  cbn [fst snd last_response last_error attr _last_lsv2_response
       _last_error _tcpsock set_last_error set_last_lsv2_response
       set_tcpsock].
  destruct (RSP_is RSP_NONE RSP_T_ER) as [Heq|Hne];
    [now destruct (RSP_NONE_is_not_T_ER Heq)|].
  repeat split; assumption.
Qed.

(** X9. When the first [recv] raises, [telegram] raises the same after this
    one call of [recv]; [last_response] is [RSP.NONE] and the error record
    is the one from before the call. *)
Theorem telegram_first_recv_raises (command : pystr)
    (payload : option bytes) (frame : bytes) (e : socket_exn)
    (plan : list recv_outcome) (self : LLLSV2Com) :
  _is_connected self = true ->
  encode command (payload_bytes payload) = Ok frame ->
  len frame < _buffer_size self ->
  send_returns (_tcpsock self) = true ->
  recv_plan (_tcpsock self) = RecvRaises e :: plan ->
  let r := telegram command payload true self in
  fst r = Raise (SocketRaised e)
  /\ fst (last_response (snd r)) = Ok RSP_NONE
  /\ fst (last_error (snd r)) = Ok (_last_error self)
  /\ recv_calls (_tcpsock (snd r))
     = recv_calls (_tcpsock self) ++ [_buffer_size self].
Proof.
  intros Hc He Hfit Hs Hplan. cbv zeta.
  rewrite (telegram_first_recv _ _ _ _ _ _ Hc He Hfit Hs Hplan).
  destruct (sock_send_recv frame (_buffer_size self) _ _ _ Hplan)
    as (_ & _ & Hcalls & _).
  repeat split. exact Hcalls.
Qed.

(** X10. When the header declares a length of 0, [telegram] returns an empty
    payload without another [recv], whatever came after the header in the
    first read: those bytes are dropped. *)
Theorem telegram_no_content (command : pystr) (payload : option bytes)
    (frame data_recived : bytes) (rsp : RSP) (plan : list recv_outcome)
    (self : LLLSV2Com) :
  _is_connected self = true ->
  encode command (payload_bytes payload) = Ok frame ->
  len frame < _buffer_size self ->
  send_returns (_tcpsock self) = true ->
  recv_plan (_tcpsock self) = Received data_recived :: plan ->
  8 <= len data_recived ->
  decode_length data_recived = Ok 0 ->
  RSP_of_value (decode_code data_recived) = Some rsp ->
  let r := telegram command payload true self in
  fst r = Ok []
  /\ fst (last_response (snd r)) = Ok rsp
  /\ recv_calls (_tcpsock (snd r))
     = recv_calls (_tcpsock self) ++ [_buffer_size self]
  /\ recv_plan (_tcpsock (snd r)) = plan.
Proof.
  intros Hc He Hfit Hs Hplan Hlen HL Hrsp. cbv zeta.
  rewrite (telegram_first_recv _ _ _ _ _ _ Hc He Hfit Hs Hplan).
  destruct (sock_send_recv frame (_buffer_size self) _ _ _ Hplan)
    as (_ & Hp & Hcalls & _).
  unfold after_header, bind, ret.
  rewrite (read_header_known _ _ _ _ Hlen HL Hrsp).
  cbv beta iota zeta delta [Z.ltb Z.compare]. rewrite classify_spec.
  cbn [fst snd last_response attr _last_lsv2_response _tcpsock
       set_last_error set_last_lsv2_response set_tcpsock].
  repeat split; assumption.
Qed.

(** *** The loop *)

Lemma recv_loop_done (plan : list recv_outcome) (calls : list Z)
    (response_length : Z) (data_recived response_content : bytes) :
  response_length <= len response_content ->
  recv_loop plan calls response_length data_recived response_content
  = (Ok response_content, (plan, calls)).
Proof.
  intros Hlen.
  assert (Hc : (len response_content <? response_length) = false)
    by (apply Z.ltb_ge; exact Hlen).
  destruct plan as [|[chunk|e] plan]; cbn [recv_loop]; now rewrite Hc.
Qed.

(** Reads that leave the content short until the last of them: the loop
    takes them all and no more, and gives the content with all of them
    appended. *)
Lemma recv_loop_chunks (response_length : Z) (data_recived : bytes)
    (rest : list recv_outcome) (chunks : list bytes) :
  forall (calls : list Z) (response_content : bytes),
  missing_until response_length response_content chunks = true ->
  response_length <= len (response_content ++ concat chunks) ->
  recv_loop (map Received chunks ++ rest) calls response_length data_recived
            response_content
  = (Ok (response_content ++ concat chunks),
     (rest,
      calls ++ repeat (response_length - len (slice_from 8 data_recived))
                      (length chunks))).
Proof.
  induction chunks as [|chunk chunks IH]; intros calls c Hmiss Hlen.
  - cbn [concat map app length repeat] in *. rewrite !app_nil_r in *.
    now apply recv_loop_done.
  - cbn [missing_until] in Hmiss. apply andb_true_iff in Hmiss.
    destruct Hmiss as [Hc Hmiss].
    cbn [concat] in Hlen.
    cbn [map app recv_loop concat length repeat]. rewrite Hc.
    rewrite app_assoc in Hlen |- *. rewrite (IH _ _ Hmiss Hlen).
    now rewrite <- (app_assoc calls).
Qed.

(** Reads that leave the content short, and then a [recv] that raises: the
    loop raises the same. *)
Lemma recv_loop_breaks (response_length : Z) (data_recived : bytes)
    (e : socket_exn) (rest : list recv_outcome) (chunks : list bytes) :
  forall (calls : list Z) (response_content : bytes),
  missing_until response_length response_content chunks = true ->
  len (response_content ++ concat chunks) < response_length ->
  recv_loop (map Received chunks ++ RecvRaises e :: rest) calls
            response_length data_recived response_content
  = (Raise (SocketRaised e),
     (rest,
      calls ++ repeat (response_length - len (slice_from 8 data_recived))
                      (S (length chunks)))).
Proof.
  induction chunks as [|chunk chunks IH]; intros calls c Hmiss Hlen.
  - cbn [concat map app length repeat recv_loop] in *.
    rewrite app_nil_r in Hlen.
    replace (len c <? response_length) with true
      by (symmetry; apply Z.ltb_lt; exact Hlen).
    reflexivity.
  - cbn [missing_until] in Hmiss. apply andb_true_iff in Hmiss.
    destruct Hmiss as [Hc Hmiss].
    cbn [map app recv_loop concat length] in *. rewrite Hc.
    rewrite app_assoc in Hlen. rewrite (IH _ _ Hmiss Hlen).
    cbn [repeat]. now rewrite <- (app_assoc calls).
Qed.

(** [response_loop] is [recv_loop] on the socket of the object. *)
Lemma response_loop_run (response_length : Z)
    (data_recived response_content : bytes) (self : LLLSV2Com)
    (r : result bytes) (plan : list recv_outcome) (calls : list Z) :
  recv_loop (recv_plan (_tcpsock self)) (recv_calls (_tcpsock self))
            response_length data_recived response_content
  = (r, (plan, calls)) ->
  response_loop response_length data_recived response_content self
  = (r, set_tcpsock
          (mkSocket (connect_plan (_tcpsock self)) (close_plan (_tcpsock self))
                    (send_plan (_tcpsock self)) plan
                    (send_calls (_tcpsock self)) calls)
          self).
Proof. intros H. unfold response_loop. now rewrite H. Qed.

(** [telegram] up to the header, when the code is known. *)
Lemma telegram_header_read (command : pystr) (payload : option bytes)
    (frame data_recived : bytes) (response_length : Z) (rsp : RSP)
    (plan : list recv_outcome) (self : LLLSV2Com) :
  _is_connected self = true ->
  encode command (payload_bytes payload) = Ok frame ->
  len frame < _buffer_size self ->
  send_returns (_tcpsock self) = true ->
  recv_plan (_tcpsock self) = Received data_recived :: plan ->
  8 <= len data_recived ->
  decode_length data_recived = Ok response_length ->
  RSP_of_value (decode_code data_recived) = Some rsp ->
  telegram command payload true self =
  after_header response_length data_recived
    (set_last_lsv2_response rsp
       (set_tcpsock (snd (sock_recv (_buffer_size self)
                                    (snd (sock_send frame (_tcpsock self)))))
                    (set_last_lsv2_response RSP_NONE self))).
Proof.
  intros Hc He Hfit Hs Hplan Hlen HL Hrsp.
  rewrite (telegram_first_recv _ _ _ _ _ _ Hc He Hfit Hs Hplan).
  unfold bind at 1. now rewrite (read_header_known _ _ _ _ Hlen HL Hrsp).
Qed.

(** X11. A response in pieces. When the header declares a length above 0
    and the reads that follow leave the content short until the last of
    them, [telegram] returns the content of the first read with all of them
    appended, [last_response] is the code of the header, every [recv] of the
    loop was called with the declared length less the content of the first
    read, and what the socket has after these reads is left for the next
    exchange. A read of no bytes among them changes nothing. *)
Theorem telegram_reassembles (command : pystr) (payload : option bytes)
    (frame data_recived : bytes) (response_length : Z) (rsp : RSP)
    (chunks : list bytes) (rest : list recv_outcome) (self : LLLSV2Com) :
  _is_connected self = true ->
  encode command (payload_bytes payload) = Ok frame ->
  len frame < _buffer_size self ->
  send_returns (_tcpsock self) = true ->
  recv_plan (_tcpsock self)
  = Received data_recived :: map Received chunks ++ rest ->
  8 <= len data_recived ->
  decode_length data_recived = Ok response_length ->
  RSP_of_value (decode_code data_recived) = Some rsp ->
  0 < response_length ->
  missing_until response_length (slice_from 8 data_recived) chunks = true ->
  response_length <= len (slice_from 8 data_recived ++ concat chunks) ->
  let r := telegram command payload true self in
  fst r = Ok (slice_from 8 data_recived ++ concat chunks)
  /\ fst (last_response (snd r)) = Ok rsp
  /\ recv_plan (_tcpsock (snd r)) = rest
  /\ recv_calls (_tcpsock (snd r))
     = recv_calls (_tcpsock self)
       ++ _buffer_size self
          :: repeat (response_length - len (slice_from 8 data_recived))
                    (length chunks).
Proof.
  intros Hc He Hfit Hs Hplan Hlen HL Hrsp Hpos Hmiss Hall. cbv zeta.
  rewrite (telegram_header_read _ _ _ _ _ _ _ _ Hc He Hfit Hs Hplan Hlen HL
             Hrsp).
  destruct (sock_send_recv frame (_buffer_size self) _ _ _ Hplan)
    as (_ & Hp & Hcalls & _).
  unfold after_header, bind, ret.
  replace (0 <? response_length) with true
    by (symmetry; apply Z.ltb_lt; exact Hpos).
  erewrite response_loop_run.
  2:{ cbn [_tcpsock set_tcpsock set_last_lsv2_response].
      rewrite Hp, Hcalls. now apply recv_loop_chunks. }
  cbv beta iota zeta. rewrite classify_spec.
  cbn [fst snd last_response attr _last_lsv2_response _tcpsock
       set_last_error set_last_lsv2_response set_tcpsock recv_plan
       recv_calls].
  repeat split. now rewrite <- app_assoc.
Qed.

(** X12. When a [recv] of the loop raises while the content is still short,
    [telegram] raises the same. [last_response] is then the code of the
    header, and the error record is the one from before the call, whatever
    the code is. *)
Theorem telegram_loop_raises (command : pystr) (payload : option bytes)
    (frame data_recived : bytes) (response_length : Z) (rsp : RSP)
    (chunks : list bytes) (e : socket_exn) (rest : list recv_outcome)
    (self : LLLSV2Com) :
  _is_connected self = true ->
  encode command (payload_bytes payload) = Ok frame ->
  len frame < _buffer_size self ->
  send_returns (_tcpsock self) = true ->
  recv_plan (_tcpsock self)
  = Received data_recived :: map Received chunks ++ RecvRaises e :: rest ->
  8 <= len data_recived ->
  decode_length data_recived = Ok response_length ->
  RSP_of_value (decode_code data_recived) = Some rsp ->
  missing_until response_length (slice_from 8 data_recived) chunks = true ->
  len (slice_from 8 data_recived ++ concat chunks) < response_length ->
  let r := telegram command payload true self in
  fst r = Raise (SocketRaised e)
  /\ fst (last_response (snd r)) = Ok rsp
  /\ fst (last_error (snd r)) = Ok (_last_error self).
Proof.
  intros Hc He Hfit Hs Hplan Hlen HL Hrsp Hmiss Hshort. cbv zeta.
  rewrite (telegram_header_read _ _ _ _ _ _ _ _ Hc He Hfit Hs Hplan Hlen HL
             Hrsp).
  destruct (sock_send_recv frame (_buffer_size self) _ _ _ Hplan)
    as (_ & Hp & Hcalls & _).
  assert (Hpos : 0 < response_length).
  { pose proof (len_nonneg (slice_from 8 data_recived ++ concat chunks)).
    lia. }
  unfold after_header, bind, ret.
  replace (0 <? response_length) with true
    by (symmetry; apply Z.ltb_lt; exact Hpos).
  erewrite response_loop_run.
  2:{ cbn [_tcpsock set_tcpsock set_last_lsv2_response].
      rewrite Hp, Hcalls. now apply recv_loop_breaks. }
  repeat split.
Qed.

(** X13. When [telegram] returns after a first read with a header, the
    payload is empty if the header declares no content; else the payload
    starts with the content of the first read and is as long as declared or
    longer. *)
Theorem telegram_content_covers (command : pystr) (payload : option bytes)
    (data_recived response_content : bytes) (plan : list recv_outcome)
    (self self' : LLLSV2Com) :
  telegram command payload true self = (Ok response_content, self') ->
  recv_plan (_tcpsock self) = Received data_recived :: plan ->
  8 <= len data_recived ->
  exists response_length,
    decode_length data_recived = Ok response_length
    /\ if 0 <? response_length
       then response_length <= len response_content
            /\ exists more,
                 response_content = slice_from 8 data_recived ++ more
       else response_content = [].
Proof.
  intros H Hplan Hlen.
  assert (Hfst : fst (telegram command payload true self)
                 = Ok response_content) by now rewrite H.
  destruct (telegram_returns_sent _ _ _ _ _ Hfst)
    as (frame & Hc & He & Hfit & Hs).
  clear Hfst. destruct (decode_length_ok _ Hlen) as [n Hn]. exists n.
  split; [exact Hn|].
  rewrite (telegram_first_recv _ _ _ _ _ _ Hc He Hfit Hs Hplan) in H.
  unfold bind at 1 in H.
  destruct (RSP_of_value (decode_code data_recived)) as [rsp|] eqn:Hrsp.
  - rewrite (read_header_known _ _ _ _ Hlen Hn Hrsp) in H.
    unfold after_header, bind, ret in H.
    destruct (0 <? n).
    + unfold response_loop in H.
      match type of H with
      | context [recv_loop ?pl ?cl n data_recived ?c] =>
          pose proof (recv_loop_returns pl cl n data_recived c) as Hret;
          destruct (recv_loop pl cl n data_recived c) as [[content|e] [p c']]
      end; [|discriminate H].
      rewrite classify_spec in H. injection H as <- _.
      exact (Hret _ eq_refl).
    + rewrite classify_spec in H. now injection H as <- _.
  - destruct (read_header_full data_recived
                (set_tcpsock
                   (snd (sock_recv (_buffer_size self)
                           (snd (sock_send frame (_tcpsock self)))))
                   (set_last_lsv2_response RSP_NONE self)) Hlen) as [m Hm].
    rewrite Hrsp in Hm. rewrite Hm in H. discriminate H.
Qed.

Lemma recv_loop_sizes (plan : list recv_outcome) (calls : list Z)
    (response_length : Z) (data_recived response_content : bytes) :
  exists k,
    snd (snd (recv_loop plan calls response_length data_recived
                        response_content))
    = calls ++ repeat (response_length - len (slice_from 8 data_recived)) k
    /\ (k = 0%nat \/ len response_content < response_length).
Proof.
  destruct (Z_lt_dec (len response_content) response_length) as [Hlt|Hge].
  - destruct (recv_loop_same_size plan calls response_length data_recived
                response_content) as [k Hk].
    exists k. split; [exact Hk | now right].
  - exists 0%nat. rewrite recv_loop_done by lia. cbn [snd repeat].
    split; [now rewrite app_nil_r | now left].
Qed.

(** X14. After the first [recv], called with the buffer size, every further
    [recv] of the exchange is called with one and the same size: the declared
    length less the length of the content that came with the header, which
    is 1 at least. *)
Theorem telegram_recv_sizes (command : pystr) (payload : option bytes)
    (frame data_recived : bytes) (plan : list recv_outcome)
    (self : LLLSV2Com) :
  _is_connected self = true ->
  encode command (payload_bytes payload) = Ok frame ->
  len frame < _buffer_size self ->
  send_returns (_tcpsock self) = true ->
  recv_plan (_tcpsock self) = Received data_recived :: plan ->
  8 <= len data_recived ->
  exists response_length k,
    decode_length data_recived = Ok response_length
    /\ recv_calls (_tcpsock (snd (telegram command payload true self)))
       = recv_calls (_tcpsock self)
         ++ _buffer_size self
            :: repeat (response_length - len (slice_from 8 data_recived)) k
    /\ (k = 0%nat
        \/ 1 <= response_length - len (slice_from 8 data_recived)).
Proof.
  intros Hc He Hfit Hs Hplan Hlen.
  destruct (decode_length_ok _ Hlen) as [n Hn]. exists n.
  destruct (sock_send_recv frame (_buffer_size self) _ _ _ Hplan)
    as (_ & Hp & Hcalls & _).
  destruct (RSP_of_value (decode_code data_recived)) as [rsp|] eqn:Hrsp.
  - rewrite (telegram_header_read _ _ _ _ _ _ _ _ Hc He Hfit Hs Hplan Hlen
               Hn Hrsp).
    unfold after_header, bind, ret. destruct (0 <? n).
    + unfold response_loop.
      cbn [_tcpsock set_tcpsock set_last_lsv2_response].
      match goal with
      | |- context [recv_loop ?pl ?cl n data_recived ?c] =>
          destruct (recv_loop_sizes pl cl n data_recived c)
            as (k & Hk & Hpos);
          destruct (recv_loop pl cl n data_recived c) as [[content|e] [p c']]
      end; cbn [snd] in Hk; exists k; (split; [exact Hn|]);
        (split; [|destruct Hpos as [Hpos|Hpos]; [now left | right; lia]]).
      * rewrite classify_spec. cbn [snd _tcpsock set_last_error set_tcpsock
          recv_calls]. rewrite Hk, Hcalls. now rewrite <- app_assoc.
      * cbn [snd _tcpsock set_tcpsock recv_calls]. rewrite Hk, Hcalls.
        now rewrite <- app_assoc.
    + exists 0%nat. split; [exact Hn|]. split; [|now left].
      rewrite classify_spec.
      cbn [snd _tcpsock set_last_error set_last_lsv2_response set_tcpsock
           repeat]. exact Hcalls.
  - exists 0%nat. split; [exact Hn|]. split; [|now left].
    rewrite (telegram_first_recv _ _ _ _ _ _ Hc He Hfit Hs Hplan).
    unfold bind.
    match goal with
    | |- context [read_header data_recived ?s] =>
        destruct (read_header_full data_recived s Hlen) as [m Hm]
    end.
    rewrite Hrsp in Hm. rewrite Hm. cbn [snd _tcpsock set_tcpsock repeat].
    exact Hcalls.
Qed.

(** *** Connecting and disconnecting *)

(** X15. [connect]: when the socket connects, the object is connected, with
    [last_response] at [RSP.NONE] and the empty error record; when the socket
    raises, [connect] raises the same and the connected flag,
    [last_response] and the error record are as they were. The buffer size
    is kept in both cases. *)
Theorem connect_outcome (self : LLLSV2Com) :
  let r := connect self in
  _buffer_size (snd r) = _buffer_size self
  /\ match fst (sock_connect (_tcpsock self)) with
     | None =>
         fst r = Ok tt
         /\ _is_connected (snd r) = true
         /\ fst (last_response (snd r)) = Ok RSP_NONE
         /\ fst (last_error (snd r)) = Ok TransmissionError_new
     | Some e =>
         fst r = Raise (SocketRaised e)
         /\ _is_connected (snd r) = _is_connected self
         /\ fst (last_response (snd r)) = Ok (_last_lsv2_response self)
         /\ fst (last_error (snd r)) = Ok (_last_error self)
     end.
Proof.
  cbv zeta. unfold connect, bind, tcpsock_call, assign.
  destruct (sock_connect (_tcpsock self)) as [[e|] sock]; repeat split.
Qed.

(** X16. [disconnect]: when the socket closes, the object is not connected
    any more, with [last_response] at [RSP.NONE] and the empty error record;
    when closing raises, [disconnect] raises the same and the object still
    counts as connected if it was, with [last_response] and the error record
    as they were. *)
Theorem disconnect_outcome (self : LLLSV2Com) :
  let r := disconnect self in
  _buffer_size (snd r) = _buffer_size self
  /\ match fst (sock_close (_tcpsock self)) with
     | None =>
         fst r = Ok tt
         /\ _is_connected (snd r) = false
         /\ fst (last_response (snd r)) = Ok RSP_NONE
         /\ fst (last_error (snd r)) = Ok TransmissionError_new
     | Some e =>
         fst r = Raise (SocketRaised e)
         /\ _is_connected (snd r) = _is_connected self
         /\ fst (last_response (snd r)) = Ok (_last_lsv2_response self)
         /\ fst (last_error (snd r)) = Ok (_last_error self)
     end.
Proof.
  cbv zeta. unfold disconnect, bind, tcpsock_call, assign.
  destruct (sock_close (_tcpsock self)) as [[e|] sock]; repeat split.
Qed.

(** X17. After a [disconnect] that returns, [telegram] raises the exception
    of a connection not open and touches neither the socket nor
    [last_response]. *)
Theorem disconnect_then_telegram (command : pystr) (payload : option bytes)
    (wait_for_response : bool) (self : LLLSV2Com) :
  fst (disconnect self) = Ok tt ->
  telegram command payload wait_for_response (snd (disconnect self))
  = (Raise ConnectionNotOpen, snd (disconnect self)).
Proof.
  intros Hd.
  assert (Hc : _is_connected (snd (disconnect self)) = false).
  { revert Hd. unfold disconnect, bind, tcpsock_call, assign.
    destruct (sock_close (_tcpsock self)) as [[e|] sock];
      [discriminate | reflexivity]. }
  unfold telegram. unfold bind at 1, attr at 1. now rewrite Hc.
Qed.

(** X18. An object as [__init__] makes it: the port is the one given if it
    is above 0 and 19000 if it is not, the buffer size is 256, the object is
    not connected, [last_response] is [RSP.NONE] and the error record is
    empty; [telegram] raises the exception of a connection not open on it
    and leaves it as it is. *)
Theorem init_outcome (host_ip : pystr) (port : Z) (sock : Socket) :
  exists self,
    init (Some host_ip) port (Some sock) = Ok self
    /\ _port self = (if 0 <? port then port else 19000)
    /\ fst (get_buffer_size self) = Ok 256
    /\ _is_connected self = false
    /\ fst (last_response self) = Ok RSP_NONE
    /\ fst (last_error self) = Ok TransmissionError_new
    /\ _tcpsock self = sock
    /\ forall command payload wait_for_response,
         telegram command payload wait_for_response self
         = (Raise ConnectionNotOpen, self).
Proof.
  eexists. split; [reflexivity|]. repeat split.
Qed.

End Paths.

(** ** The error record of an exchange *)

Section Classification.

Context {const : Const} {dat_cls : DatCls}.

(** The whole of an exchange whose first read gives no byte. *)
Lemma telegram_empty_read_eq (command : pystr) (payload : option bytes)
    (frame : bytes) (plan : list recv_outcome) (self : LLLSV2Com) :
  _is_connected self = true ->
  encode command (payload_bytes payload) = Ok frame ->
  len frame < _buffer_size self ->
  send_returns (_tcpsock self) = true ->
  recv_plan (_tcpsock self) = Received [] :: plan ->
  telegram command payload true self =
  (Ok [],
   set_last_error TransmissionError_new
     (set_last_lsv2_response RSP_NONE
        (set_tcpsock
           (snd (sock_recv (_buffer_size self)
                           (snd (sock_send frame (_tcpsock self)))))
           (set_last_lsv2_response RSP_NONE self)))).
Proof.
  intros Hc He Hfit Hs Hplan.
  rewrite (telegram_first_recv _ _ _ _ _ _ Hc He Hfit Hs Hplan).
  unfold after_header, read_header, bind, assign, ret.
  cbv beta iota zeta delta [len length Z.of_nat Z.ltb Z.compare].
  rewrite classify_spec. cbn [_last_lsv2_response set_last_lsv2_response].
  destruct (RSP_is RSP_NONE RSP_T_ER) as [Heq|Hne]; [|reflexivity].
  now destruct (RSP_NONE_is_not_T_ER Heq).
Qed.

(** C8. When [telegram] returns after a first read with a header, of which
    the code is the response code [rsp]: [last_response] is [rsp]; if [rsp]
    is [RSP.T_ER], [last_error] is the record decoded from the content, and
    this content is the payload that is returned; if [rsp] is another code,
    [last_error] is the empty record. When [telegram] returns without a
    header, not waiting or with a first read of no byte, [last_response] is
    [RSP.NONE] and [last_error] the empty record. *)
Theorem telegram_classifies (command : pystr) (payload : option bytes)
    (wait_for_response : bool) (self self' : LLLSV2Com)
    (response_content : bytes) :
  telegram command payload wait_for_response self
  = (Ok response_content, self') ->
  (forall (data_recived : bytes) (plan : list recv_outcome) (rsp : RSP),
      wait_for_response = true ->
      recv_plan (_tcpsock self) = Received data_recived :: plan ->
      8 <= len data_recived ->
      RSP_of_value (decode_code data_recived) = Some rsp ->
      fst (last_response self') = Ok rsp
      /\ (rsp = RSP_T_ER ->
          fst (last_error self')
          = Ok (TransmissionError_from_ba response_content))
      /\ (rsp <> RSP_T_ER ->
          fst (last_error self') = Ok TransmissionError_new))
  /\ (wait_for_response = false
      \/ (exists plan, recv_plan (_tcpsock self) = Received [] :: plan) ->
      fst (last_response self') = Ok RSP_NONE
      /\ fst (last_error self') = Ok TransmissionError_new).
Proof.
  intros H.
  assert (Hfst : fst (telegram command payload wait_for_response self)
                 = Ok response_content) by now rewrite H.
  destruct (telegram_returns_sent _ _ _ _ _ Hfst)
    as (frame & Hc & He & Hfit & Hs).
  clear Hfst. split.
  - intros data plan rsp -> Hplan Hlen Hrsp.
    destruct (decode_length_ok _ Hlen) as [n Hn].
    rewrite (telegram_header_read _ _ _ _ _ _ _ _ Hc He Hfit Hs Hplan Hlen
               Hn Hrsp) in H.
    unfold after_header in H. unfold bind at 1 in H.
    match type of H with
    | context [(if 0 <? n then ?a else ?b) ?s] =>
        assert (Hloop : _last_lsv2_response
                          (snd ((if 0 <? n then a else b) s)) = rsp);
        [ destruct (0 <? n); [|reflexivity];
          now rewrite (proj1 (response_loop_attrs _ _ _ _))
        | destruct ((if 0 <? n then a else b) s) as [[content|e] s3] ]
    end; [|discriminate H].
    cbn [snd] in Hloop. unfold bind, ret in H. rewrite classify_spec in H.
    injection H as <- <-. unfold last_response, last_error, attr.
    cbn [fst _last_error _last_lsv2_response set_last_error].
    rewrite Hloop.
    destruct (RSP_is rsp RSP_T_ER) as [Heq|Hne];
      repeat split; intros Hr; congruence.
  - intros Hnone.
    assert (Hno : wait_for_response = false
                  \/ (wait_for_response = true
                      /\ exists plan,
                           recv_plan (_tcpsock self) = Received [] :: plan)).
    { destruct wait_for_response; [right|now left].
      destruct Hnone as [Hw|Hp]; [discriminate Hw | now split]. }
    destruct Hno as [->|[-> [plan Hplan]]].
    + rewrite (telegram_no_reply_eq _ _ _ _ Hc He Hfit Hs) in H.
      injection H as _ <-. split; reflexivity.
    + rewrite (telegram_empty_read_eq _ _ _ _ _ Hc He Hfit Hs Hplan) in H.
      injection H as _ <-. split; reflexivity.
Qed.

End Classification.

Lemma telegram_classifies_witness :
  let r := telegram R_VR None true
             (connected_on (socket_receiving error_response)
                           sample_NONE sample_no_error) in
  fst r = Ok [x01; x02; x03]
  /\ fst (last_response (snd r)) = Ok sample_T_ER
  /\ fst (last_error (snd r)) = Ok (sample_error_of [x01; x02; x03]).
Proof.
  cbv zeta. split; [reflexivity|].
  destruct (@telegram_classifies sample_const sample_dat_cls R_VR None true
              (connected_on (socket_receiving error_response)
                            sample_NONE sample_no_error)
              (snd (telegram R_VR None true
                      (connected_on (socket_receiving error_response)
                                    sample_NONE sample_no_error)))
              [x01; x02; x03] eq_refl) as [Hheader _].
  destruct (Hheader (header_of 3 T_ER_bytes ++ [x01; x02; x03]) []
                    sample_T_ER eq_refl eq_refl)
    as (Hrsp & Herr & _); try reflexivity.
  - vm_compute. discriminate.
  - split; [exact Hrsp | exact (Herr eq_refl)].
Defined.

(** ** The paths on the sample catalog *)

Lemma telegram_not_connected_witness :
  telegram R_VR None true constructed = (Raise ConnectionNotOpen, constructed).
Proof.
  apply (telegram_not_connected R_VR None true constructed). reflexivity.
Defined.

Lemma telegram_command_not_bytes_witness :
  let self := connected_on (socket_receiving fragmented)
                           sample_T_OK sample_no_error in
  let r := telegram R_euro None true self in
  fst r = Raise ValueError
  /\ _tcpsock (snd r) = _tcpsock self
  /\ fst (last_response (snd r)) = Ok RSP_NONE
  /\ fst (last_error (snd r)) = Ok (_last_error self).
Proof.
  apply (telegram_command_not_bytes R_euro None true
           (connected_on (socket_receiving fragmented)
                         sample_T_OK sample_no_error)).
  - reflexivity.
  - reflexivity.
  - exists 8364. split; [simpl; auto | lia].
Defined.

Lemma telegram_buffer_size_8_witness :
  let self := connected_on (socket_receiving fragmented)
                           sample_NONE sample_no_error in
  let self8 := snd (set_buffer_size 8 self) in
  let r := telegram R_VR None true self8 in
  fst (set_buffer_size 8 self) = Ok true
  /\ fst r = Raise OverflowError
  /\ sent (snd r) = sent self.
Proof.
  apply (telegram_buffer_size_8 R_VR None true
           (connected_on (socket_receiving fragmented)
                         sample_NONE sample_no_error));
    reflexivity.
Defined.

Lemma telegram_sends_once_witness :
  sent (snd (telegram R_VR None true
               (connected_on socket_breaking sample_NONE sample_no_error)))
  = sent (connected_on socket_breaking sample_NONE sample_no_error)
    ++ [R_VR_frame].
Proof.
  apply (telegram_sends_once R_VR None true R_VR_frame
           (connected_on socket_breaking sample_NONE sample_no_error));
    reflexivity.
Defined.

Lemma telegram_send_raises_witness :
  let self := connected_on socket_not_sending sample_T_OK
                           (sample_error_of [x01]) in
  let r := telegram R_VR None true self in
  fst r = Raise (SocketRaised socket_error)
  /\ recv_calls (_tcpsock (snd r)) = recv_calls (_tcpsock self)
  /\ fst (last_response (snd r)) = Ok RSP_NONE
  /\ fst (last_error (snd r)) = Ok (_last_error self).
Proof.
  apply (telegram_send_raises R_VR None true R_VR_frame socket_error []
           (connected_on socket_not_sending sample_T_OK
                         (sample_error_of [x01])));
    reflexivity.
Defined.

Lemma telegram_empty_read_witness :
  let self := connected_on (socket_receiving [[]]) sample_T_ER
                           (sample_error_of [x01]) in
  let r := telegram R_VR None true self in
  fst r = Ok []
  /\ fst (last_response (snd r)) = Ok RSP_NONE
  /\ fst (last_error (snd r)) = Ok TransmissionError_new
  /\ recv_calls (_tcpsock (snd r))
     = recv_calls (_tcpsock self) ++ [_buffer_size self]
  /\ recv_plan (_tcpsock (snd r)) = [].
Proof.
  apply (telegram_empty_read R_VR None R_VR_frame []
           (connected_on (socket_receiving [[]]) sample_T_ER
                         (sample_error_of [x01])));
    reflexivity.
Defined.

Lemma telegram_first_recv_raises_witness :
  let self := connected_on socket_silent sample_T_OK
                           (sample_error_of [x01]) in
  let r := telegram R_VR None true self in
  fst r = Raise (SocketRaised socket_timeout)
  /\ fst (last_response (snd r)) = Ok RSP_NONE
  /\ fst (last_error (snd r)) = Ok (_last_error self)
  /\ recv_calls (_tcpsock (snd r))
     = recv_calls (_tcpsock self) ++ [_buffer_size self].
Proof.
  apply (telegram_first_recv_raises R_VR None R_VR_frame socket_timeout []
           (connected_on socket_silent sample_T_OK (sample_error_of [x01])));
    reflexivity.
Defined.

Lemma telegram_no_content_witness :
  let self := connected_on (socket_receiving empty_response) sample_NONE
                           sample_no_error in
  let r := telegram R_VR None true self in
  fst r = Ok []
  /\ fst (last_response (snd r)) = Ok sample_T_OK
  /\ recv_calls (_tcpsock (snd r))
     = recv_calls (_tcpsock self) ++ [_buffer_size self]
  /\ recv_plan (_tcpsock (snd r)) = [].
Proof.
  apply (@telegram_no_content sample_const sample_dat_cls R_VR None
           R_VR_frame
           (header_of 0 T_OK_bytes ++ [x01; x02]) sample_T_OK []
           (connected_on (socket_receiving empty_response) sample_NONE
                         sample_no_error));
    try reflexivity; vm_compute; discriminate.
Defined.

Lemma telegram_reassembles_witness :
  let self := connected_on (socket_receiving fragmented) sample_NONE
                           sample_no_error in
  let r := telegram R_VR None true self in
  fst r = Ok (slice_from 8 (header_of 100 T_OK_bytes)
              ++ concat [repeat x01 40; repeat x02 40; repeat x03 20])
  /\ fst (last_response (snd r)) = Ok sample_T_OK
  /\ recv_plan (_tcpsock (snd r)) = []
  /\ recv_calls (_tcpsock (snd r))
     = recv_calls (_tcpsock self)
       ++ _buffer_size self
          :: repeat (100 - len (slice_from 8 (header_of 100 T_OK_bytes)))
                    (length [repeat x01 40; repeat x02 40; repeat x03 20]).
Proof.
  apply (@telegram_reassembles sample_const sample_dat_cls R_VR None
           R_VR_frame
           (header_of 100 T_OK_bytes) 100 sample_T_OK
           [repeat x01 40; repeat x02 40; repeat x03 20] []
           (connected_on (socket_receiving fragmented) sample_NONE
                         sample_no_error));
    try reflexivity; vm_compute; discriminate.
Defined.

Lemma telegram_loop_raises_witness :
  let self := connected_on socket_breaking sample_T_ER
                           (sample_error_of [x01]) in
  let r := telegram R_VR None true self in
  fst r = Raise (SocketRaised socket_timeout)
  /\ fst (last_response (snd r)) = Ok sample_T_OK
  /\ fst (last_error (snd r)) = Ok (_last_error self).
Proof.
  apply (@telegram_loop_raises sample_const sample_dat_cls R_VR None
           R_VR_frame
           (header_of 100 T_OK_bytes) 100 sample_T_OK
           [repeat x01 40] socket_timeout []
           (connected_on socket_breaking sample_T_ER
                         (sample_error_of [x01])));
    try reflexivity; vm_compute; discriminate.
Defined.

Lemma telegram_content_covers_witness :
  exists response_length,
    decode_length (header_of 100 T_OK_bytes) = Ok response_length
    /\ if 0 <? response_length
       then response_length
            <= len (repeat x01 40 ++ repeat x02 60 ++ repeat x03 40)
            /\ exists more,
                 repeat x01 40 ++ repeat x02 60 ++ repeat x03 40
                 = slice_from 8 (header_of 100 T_OK_bytes) ++ more
       else repeat x01 40 ++ repeat x02 60 ++ repeat x03 40 = [].
Proof.
  apply (telegram_content_covers R_VR None (header_of 100 T_OK_bytes)
           (repeat x01 40 ++ repeat x02 60 ++ repeat x03 40)
           [Received (repeat x01 40);
            Received (repeat x02 60 ++ repeat x03 40)]
           (connected_on (socket_receiving overlong) sample_NONE
                         sample_no_error)
           (snd (telegram R_VR None true
                   (connected_on (socket_receiving overlong) sample_NONE
                                 sample_no_error))));
    try reflexivity; vm_compute; discriminate.
Defined.

Lemma telegram_recv_sizes_witness :
  let self := connected_on (socket_receiving fragmented) sample_NONE
                           sample_no_error in
  exists response_length k,
    decode_length (header_of 100 T_OK_bytes) = Ok response_length
    /\ recv_calls (_tcpsock (snd (telegram R_VR None true self)))
       = recv_calls (_tcpsock self)
         ++ _buffer_size self
            :: repeat (response_length
                       - len (slice_from 8 (header_of 100 T_OK_bytes))) k
    /\ (k = 0%nat
        \/ 1 <= response_length
                - len (slice_from 8 (header_of 100 T_OK_bytes))).
Proof.
  apply (telegram_recv_sizes R_VR None R_VR_frame (header_of 100 T_OK_bytes)
           [Received (repeat x01 40); Received (repeat x02 40);
            Received (repeat x03 20)]
           (connected_on (socket_receiving fragmented) sample_NONE
                         sample_no_error));
    try reflexivity; vm_compute; discriminate.
Defined.

Lemma disconnect_then_telegram_witness :
  let self := connected_on (socket_receiving fragmented) sample_T_OK
                           sample_no_error in
  telegram R_VR None true (snd (disconnect self))
  = (Raise ConnectionNotOpen, snd (disconnect self)).
Proof.
  apply (disconnect_then_telegram R_VR None true
           (connected_on (socket_receiving fragmented) sample_T_OK
                         sample_no_error)).
  reflexivity.
Defined.
